(** * Daywise: the AI-suggestion pipeline

    A shallow embedding of the suggestion pipeline of the Daywise
    household planner, and the properties its specification states.

    - [OllamaService]  backend/src/ai/ollama-service.ts
      (prompt rendering, the LLM gateway, the response parser);
    - [AiRoute]        the [/ai/suggestions] handler and its canned
      [getFallbackSuggestions];
    - [AIService]      the mobile client's services/aiService.ts
      (prompt text, normalisation of suggestions, the fallback catalog,
      [getMealRecommendations]).

    Modelling conventions.
    - JavaScript numbers are whole quantities here (grams, kcal, minutes):
      they are embedded as [Z]; [Math.round] is then the identity.  The
      embedding is exact for whole amounts in the range where the
      arithmetic of doubles is exact; fractional amounts, and the exponent
      notation in which doubles below 1e-6 or from 1e21 are printed, are
      outside it.
    - JavaScript strings are embedded as [string] (bytes, UTF-8 for the
      Dutch texts).  Case mapping and the white-space class are the ASCII
      ones: [toLowerCase] touches [A-Z] only, and [\s] / [trim] know the
      six ASCII blanks.  On ASCII text they are those of JavaScript; on
      text with other blanks (U+00A0, U+FEFF, ...) or letters (U+212A)
      they are not, and a statement that depends on them says so.
    - A property that may be absent from an object is an [option]; the
      truthiness tests of the source ([a || b], [if (a)]) are written out
      per type ([or_str], [or_num], [or_list]).
    - [async] functions that can throw return [Result]; [try]/[catch] is
      [try_catch].  The outside world (the two Ollama endpoints, the hop
      from the phone to the backend, the clock) is a [World] record that
      every request reads. *)

From Stdlib Require Import ZArith List String Ascii Bool Lia DecimalString.
From Stdlib Require QArith_base.
From Stdlib Require DecimalPos DecimalZ.
From stdpp Require Import gmap strings.

Open Scope Z_scope.
Open Scope string_scope.

(* ===================================================================== *)
(** ** Text primitives of the JavaScript runtime                          *)
(* ===================================================================== *)

Module Text.

Definition is_upper (c : ascii) : bool :=
  let n := nat_of_ascii c in (65 <=? n)%nat && (n <=? 90)%nat.

Definition lower_ascii (c : ascii) : ascii :=
  if is_upper c then ascii_of_nat (nat_of_ascii c + 32) else c.

(** [s.toLowerCase()] *)
Fixpoint toLowerCase (s : string) : string :=
  match s with
  | EmptyString => EmptyString
  | String c s' => String (lower_ascii c) (toLowerCase s')
  end.

(** The blanks: TAB, LF, VT, FF, CR, SPACE. *)
Definition is_space (c : ascii) : bool :=
  let n := nat_of_ascii c in
  ((9 <=? n)%nat && (n <=? 13)%nat) || (n =? 32)%nat.

Definition is_digit (c : ascii) : bool :=
  let n := nat_of_ascii c in (48 <=? n)%nat && (n <=? 57)%nat.

Fixpoint trimStart (s : string) : string :=
  match s with
  | EmptyString => EmptyString
  | String c s' => if is_space c then trimStart s' else s
  end.

(** Drops trailing blanks: a character stays when it is not a blank or
    when something that stays follows it. *)
Fixpoint trimEnd (s : string) : string :=
  match s with
  | EmptyString => EmptyString
  | String c s' =>
      match trimEnd s' with
      | EmptyString => if is_space c then EmptyString else String c EmptyString
      | t => String c t
      end
  end.

(** [s.trim()] *)
Definition trim (s : string) : string := trimEnd (trimStart s).

(** Truthiness of a string: the empty string is the only falsy one. *)
Definition truthy (s : string) : bool :=
  match s with EmptyString => false | String _ _ => true end.

(** [s.includes(sub)] *)
Fixpoint includes (sub s : string) : bool :=
  String.prefix sub s ||
  match s with
  | EmptyString => false
  | String _ s' => includes sub s'
  end.

(** [s.split(sep)] for a one-character separator: never the empty list. *)
Fixpoint split (sep : ascii) (s : string) : list string :=
  match s with
  | EmptyString => [EmptyString]
  | String c s' =>
      if Ascii.eqb c sep then EmptyString :: split sep s'
      else match split sep s' with
           | [] => [String c EmptyString]
           | w :: ws => String c w :: ws
           end
  end.

(** [s.split(sep)] for a separator string (used with ["\n\n"]). Only the
    first piece is ever read by the callers; the pieces are produced left
    to right, cutting at each leftmost occurrence. *)
Fixpoint split_str_aux (sep : string) (n : nat) (s : string) : list string :=
  match s with
  | EmptyString => [EmptyString]
  | String c s' =>
      match n with
      | O =>
          if String.prefix sep s then
            EmptyString ::
              split_str_aux sep (Nat.pred (String.length sep)) s'
          else match split_str_aux sep O s' with
               | [] => [String c EmptyString]
               | w :: ws => String c w :: ws
               end
      | S n' => split_str_aux sep n' s'
      end
  end.

Definition split_str (sep s : string) : list string := split_str_aux sep O s.

(** [words.join(sep)] *)
Fixpoint join (sep : string) (ws : list string) : string :=
  match ws with
  | [] => EmptyString
  | [w] => w
  | w :: ws' => w ++ sep ++ join sep ws'
  end.

(** The template-literal rendering of a number. *)
Definition render (n : Z) : string := NilZero.string_of_int (Z.to_int n).

Definition newline : ascii := ascii_of_nat 10.
Definition nl : string := String newline EmptyString.

End Text.

(* ===================================================================== *)
(** ** The regular expressions of the parser                              *)
(* ===================================================================== *)

(** Every pattern of the source is a sequence of quantified character
    classes with at most one capturing group, so that is the syntax
    embedded here; matching is greedy with backtracking, as in
    JavaScript. *)
Module Regex.

Inductive quant := One | Opt | Star | Plus.

Record atom := Atom { cls : ascii -> bool; rep : quant; captures : bool }.

Definition regex := list atom.

(** A match: the text of group 1 and what follows the match. *)
Definition hit : Type := string * string.

Definition keep (a : atom) (c : ascii) (h : hit) : hit :=
  if captures a then (String c (fst h), snd h) else h.

(** Greedy repetition of [a] followed by the continuation [k]: take one
    more character when that leads to a match, give it back otherwise. *)
Fixpoint star (a : atom) (k : string -> option hit) (s : string) : option hit :=
  match s with
  | EmptyString => k s
  | String c s' =>
      if cls a c then
        match star a k s' with
        | Some h => Some (keep a c h)
        | None => k s
        end
      else k s
  end.

(** The pattern matched at the very start of [s]. *)
Fixpoint match_here (re : regex) : string -> option hit :=
  match re with
  | [] => fun s => Some (EmptyString, s)
  | a :: re' =>
      let k := match_here re' in
      fun s =>
        match rep a with
        | One =>
            match s with
            | String c s' => if cls a c then option_map (keep a c) (k s') else None
            | EmptyString => None
            end
        | Opt =>
            match s with
            | String c s' =>
                if cls a c then
                  match k s' with
                  | Some h => Some (keep a c h)
                  | None => k s
                  end
                else k s
            | EmptyString => k s
            end
        | Star => star a k s
        | Plus =>
            match s with
            | String c s' =>
                if cls a c then option_map (keep a c) (star a k s') else None
            | EmptyString => None
            end
        end
  end.

(** [s.match(re)] for a pattern without anchor: the leftmost match. *)
Fixpoint search (re : regex) (s : string) : option hit :=
  match match_here re s with
  | Some h => Some h
  | None =>
      match s with
      | EmptyString => None
      | String _ s' => search re s'
      end
  end.

(** An alternation of patterns that all start with [^]: the first
    alternative that matches at the start wins. *)
Fixpoint match_anchored (alts : list regex) (s : string) : option hit :=
  match alts with
  | [] => None
  | re :: alts' =>
      match match_here re s with
      | Some h => Some h
      | None => match_anchored alts' s
      end
  end.

Definition chr (c : ascii) : atom := Atom (Ascii.eqb c) One false.

(** A literal letter under the [i] flag. *)
Definition chr_i (c : ascii) : atom :=
  Atom (fun x => Ascii.eqb (Text.lower_ascii x) (Text.lower_ascii c)) One false.

Fixpoint lit_i (s : string) : regex :=
  match s with
  | EmptyString => []
  | String c s' => chr_i c :: lit_i s'
  end.

(** [[^,.\n]] *)
Definition name_char (c : ascii) : bool :=
  negb (Ascii.eqb c ","%char || Ascii.eqb c "."%char || Ascii.eqb c Text.newline).

(** [([^,.\n]+)] *)
Definition name_group : atom := Atom name_char Plus true.

(** [/^\d+\.|^-|^\*/] *)
Definition list_marker : list regex :=
  [ [Atom Text.is_digit Plus false; chr "."%char];
    [chr "-"%char];
    [chr "*"%char] ].

(** [/recipe:?\s*([^,.\n]+)/i] *)
Definition recipe_pattern : regex :=
  (lit_i "recipe" ++
   [Atom (Ascii.eqb ":"%char) Opt false; Atom Text.is_space Star false;
    name_group])%list.

(** [/make\s+([^,.\n]+)/i] *)
Definition make_pattern : regex :=
  (lit_i "make" ++ [Atom Text.is_space Plus false; name_group])%list.

(** [/try\s+([^,.\n]+)/i] *)
Definition try_pattern : regex :=
  (lit_i "try" ++ [Atom Text.is_space Plus false; name_group])%list.

End Regex.

(* ===================================================================== *)
(** ** Exceptions                                                         *)
(* ===================================================================== *)

(** A computation that returns or throws an [Error] with its message. *)
Inductive Result (A : Type) : Type :=
| Ok (value : A)
| Throw (message : string).
Arguments Ok {A} value.
Arguments Throw {A} message.

#[global] Instance Result_ret : MRet Result := fun A a => Ok a.

#[global] Instance Result_bind : MBind Result := fun A B f m =>
  match m with
  | Ok a => f a
  | Throw e => Throw e
  end.

(** [try { body } catch (error) { handler }] *)
Definition try_catch {A} (body : Result A) (handler : string -> Result A) : Result A :=
  match body with
  | Ok a => Ok a
  | Throw e => handler e
  end.

(* ===================================================================== *)
(** ** Shared types (shared/src/types)                                    *)
(* ===================================================================== *)

(** [AiPrompt['type']].  [unlisted] stands for a tag outside the enum: the
    route's schema rejects it, the [default] branches of the service's
    switches serve it. *)
Inductive PromptType :=
| meal_planning
| shopping_optimization
| budget_analysis
| cleaning_schedule
| unlisted (tag : string).

Record CalendarEvent := {
  title : string;
  start_time : Z;
  event_type : string
}.

(** The nutrition objects inside [user_preferences] (a [record<any>]):
    every property may be missing. *)
Record NutritionObject := {
  o_calories : option Z;
  o_protein : option Z;
  o_carbs : option Z;
  o_fat : option Z
}.

Record UserPreferences := {
  dietary : option (list string);
  nutrition_goals : option NutritionObject;
  current_nutrition : option NutritionObject;
  meals_today : option (list string)
}.

Record PromptContext := {
  calendar_events : option (list CalendarEvent);
  user_preferences : option UserPreferences;
  current_date : Z;
  location : string
}.

Record AiPrompt := {
  type : PromptType;
  context : PromptContext;
  user_input : string
}.

(** A suggestion is an untyped object ([any]); these are the properties
    some producer writes or some consumer reads. *)
Record Suggestion := {
  s_meal : option string;
  s_recipe_name : option string;
  s_reasoning : option string;
  s_advice : option string;
  s_item : option string;
  s_category : option string;
  s_task : option string;
  s_prep_time : option Z;
  s_calories : option Z;
  s_protein : option Z;
  s_carbs : option Z;
  s_fat : option Z;
  s_ingredients : option (list string);
  s_instructions : option (list string)
}.

Definition no_props : Suggestion :=
  {| s_meal := None; s_recipe_name := None; s_reasoning := None;
     s_advice := None; s_item := None; s_category := None; s_task := None;
     s_prep_time := None; s_calories := None; s_protein := None;
     s_carbs := None; s_fat := None; s_ingredients := None;
     s_instructions := None |}.

(** [{ advice }] *)
Definition advice_only (advice : string) : Suggestion :=
  {| s_meal := None; s_recipe_name := None; s_reasoning := None;
     s_advice := Some advice; s_item := None; s_category := None;
     s_task := None; s_prep_time := None; s_calories := None;
     s_protein := None; s_carbs := None; s_fat := None;
     s_ingredients := None; s_instructions := None |}.

(** [{ meal, recipe_name, reasoning }]; [recipe_name] may be [null]. *)
Definition meal_object (meal : string) (recipe_name : option string)
    (reasoning : string) : Suggestion :=
  {| s_meal := Some meal; s_recipe_name := recipe_name;
     s_reasoning := Some reasoning; s_advice := None; s_item := None;
     s_category := None; s_task := None; s_prep_time := None;
     s_calories := None; s_protein := None; s_carbs := None; s_fat := None;
     s_ingredients := None; s_instructions := None |}.

(** [{ item, advice }] *)
Definition item_object (item advice : string) : Suggestion :=
  {| s_meal := None; s_recipe_name := None; s_reasoning := None;
     s_advice := Some advice; s_item := Some item; s_category := None;
     s_task := None; s_prep_time := None; s_calories := None;
     s_protein := None; s_carbs := None; s_fat := None;
     s_ingredients := None; s_instructions := None |}.

(** [{ category, advice }] *)
Definition category_object (category advice : string) : Suggestion :=
  {| s_meal := None; s_recipe_name := None; s_reasoning := None;
     s_advice := Some advice; s_item := None; s_category := Some category;
     s_task := None; s_prep_time := None; s_calories := None;
     s_protein := None; s_carbs := None; s_fat := None;
     s_ingredients := None; s_instructions := None |}.

(** [{ task, advice }] *)
Definition task_object (task advice : string) : Suggestion :=
  {| s_meal := None; s_recipe_name := None; s_reasoning := None;
     s_advice := Some advice; s_item := None; s_category := None;
     s_task := Some task; s_prep_time := None; s_calories := None;
     s_protein := None; s_carbs := None; s_fat := None;
     s_ingredients := None; s_instructions := None |}.

Record AiResponse := {
  response_type : PromptType;
  suggestions : list Suggestion;
  reasoning : string;
  confidence : QArith_base.Q
}.

(** ** Truthiness and [||] *)

Definition truthy_str (v : option string) : bool :=
  match v with
  | Some s => Text.truthy s
  | None => false
  end.

Definition truthy_num (v : option Z) : bool :=
  match v with
  | Some n => negb (Z.eqb n 0)
  | None => false
  end.

(** [a || b] on possibly missing strings *)
Definition or_str (a b : option string) : option string :=
  if truthy_str a then a else b.

(** [a || 'literal'] *)
Definition or_text (a : option string) (b : string) : string :=
  match a with
  | Some (String c s) => String c s
  | _ => b
  end.

(** [a || n] on a possibly missing number: [0] counts as missing. *)
Definition or_num (a : option Z) (b : Z) : Z :=
  match a with
  | Some n => if Z.eqb n 0 then b else n
  | None => b
  end.

(** [a || list]: every array is truthy, also the empty one. *)
Definition or_list (a : option (list string)) (b : list string) : list string :=
  match a with
  | Some l => l
  | None => b
  end.

(* ===================================================================== *)
(** ** The outside world of one request                                   *)
(* ===================================================================== *)

Record HttpResponse (B : Type) := {
  ok : bool;
  statusText : string;
  body : B
}.
Arguments ok {B} _.
Arguments statusText {B} _.
Arguments body {B} _.

Record World := {
  (** [fetch(baseUrl + '/api/tags')]: throws on a network failure. *)
  ollama_tags : Result (HttpResponse unit);
  (** [fetch(baseUrl + '/api/generate', ...)] for the composed prompt; the
      body is the [response] property of the JSON answer when it has one. *)
  ollama_generate : string -> Result (HttpResponse (option string));
  (** Whether the phone reaches the backend at all. *)
  backend_reachable : bool;
  (** [Date.now()] *)
  now : Z;
  (** The runtime's [nl-NL] formatters *)
  toLocaleDateString : Z -> string;
  toLocaleString : Z -> string
}.

(* ===================================================================== *)
(** ** backend/src/ai/ollama-service.ts                                   *)
(* ===================================================================== *)

(** [lines.forEach(line => { ... suggestions.push(x) ... })]: the visit of
    one element pushes one record or none. *)
Fixpoint forEach_push {A B : Type} (visit : A -> option B) (l : list A)
    (pushed : list B) : list B :=
  match l with
  | [] => pushed
  | x :: l' =>
      forEach_push visit l'
        (match visit x with
         | Some b => pushed ++ [b]
         | None => pushed
         end)
  end.

Module OllamaService.

Import Text.

Definition basePrompt : string :=
  "You are a helpful nutrition and meal planning assistant. Provide practical, actionable advice focused on filling nutrition gaps and improving meal variety.".

Definition buildSystemPrompt (t : PromptType) : string :=
  match t with
  | meal_planning =>
      basePrompt ++ " Help with meal planning by suggesting foods that complement what the user has already eaten. Focus on nutrition balance, food variety, and practical meal ideas. Suggest specific ingredients and portion sizes."
  | shopping_optimization =>
      basePrompt ++ " Help optimize shopping lists based on meal plans and nutrition goals. Provide practical advice on what to buy and how to save money."
  | budget_analysis =>
      basePrompt ++ " Analyze spending patterns and provide budget advice for healthy eating within budget constraints."
  | cleaning_schedule =>
      basePrompt ++ " Create practical cleaning schedules that work with busy lifestyles."
  | unlisted _ => basePrompt
  end.

(** The four gaps of [buildUserPrompt], goals minus intake. *)
Definition calorieGap (goals current : NutritionObject) : Z :=
  or_num (o_calories goals) 2200 - or_num (o_calories current) 0.
Definition proteinGap (goals current : NutritionObject) : Z :=
  or_num (o_protein goals) 150 - or_num (o_protein current) 0.
Definition carbGap (goals current : NutritionObject) : Z :=
  or_num (o_carbs goals) 250 - or_num (o_carbs current) 0.
Definition fatGap (goals current : NutritionObject) : Z :=
  or_num (o_fat goals) 80 - or_num (o_fat current) 0.

Definition remaining_line (goals current : NutritionObject) : string :=
  "Remaining today: " ++ render (Z.max 0 (calorieGap goals current)) ++
  " kcal, " ++ render (Z.max 0 (proteinGap goals current)) ++
  "g protein, " ++ render (Z.max 0 (carbGap goals current)) ++
  "g carbs, " ++ render (Z.max 0 (fatGap goals current)) ++ "g fat" ++ nl.

Definition nutrition_block (prefs : option UserPreferences) : string :=
  match prefs with
  | Some up =>
      match current_nutrition up with
      | Some current =>
          nl ++ "Nutrition today: " ++ render (or_num (o_calories current) 0) ++
          " kcal, " ++ render (or_num (o_protein current) 0) ++
          "g protein, " ++ render (or_num (o_carbs current) 0) ++
          "g carbs, " ++ render (or_num (o_fat current) 0) ++ "g fat" ++ nl ++
          match nutrition_goals up with
          | Some goals =>
              "Daily goals: " ++ render (or_num (o_calories goals) 2200) ++
              " kcal, " ++ render (or_num (o_protein goals) 150) ++
              "g protein, " ++ render (or_num (o_carbs goals) 250) ++
              "g carbs, " ++ render (or_num (o_fat goals) 80) ++ "g fat" ++ nl ++
              remaining_line goals current
          | None => EmptyString
          end
      | None => EmptyString
      end
  | None => EmptyString
  end.

Definition meals_block (prefs : option UserPreferences) : string :=
  match prefs with
  | Some up =>
      match meals_today up with
      | Some meals =>
          fold_left (fun str meal => str ++ "- " ++ meal ++ nl) meals
            (nl ++ "Meals already eaten today:" ++ nl)
      | None => EmptyString
      end
  | None => EmptyString
  end.

Definition events_block (w : World) (events : option (list CalendarEvent)) : string :=
  match events with
  | Some (e :: es) =>
      fold_left
        (fun str event =>
           str ++ "- " ++ title event ++ " at " ++
           toLocaleString w (start_time event) ++ " (" ++ event_type event ++
           ")" ++ nl)
        (e :: es) (nl ++ "Upcoming calendar events:" ++ nl)
  | _ => EmptyString
  end.

Definition dietary_block (prefs : option UserPreferences) : string :=
  match prefs with
  | Some up =>
      match dietary up with
      | Some d => nl ++ "Dietary preferences: " ++ join ", " d ++ nl
      | None => EmptyString
      end
  | None => EmptyString
  end.

Definition buildUserPrompt (w : World) (prompt : AiPrompt) : string :=
  let ctx := context prompt in
  let contextStr :=
    "Current date: " ++ toLocaleDateString w (current_date ctx) ++ nl ++
    "Location: " ++ location ctx ++ nl ++
    nutrition_block (user_preferences ctx) ++
    meals_block (user_preferences ctx) ++
    events_block w (calendar_events ctx) ++
    dietary_block (user_preferences ctx) in
  contextStr ++ nl ++ "User request: " ++ user_input prompt ++ nl ++ nl ++
  "Focus on practical meal suggestions that fill nutrition gaps. Be specific about ingredients and portions. Keep suggestions simple and achievable.".

(** [line.match(/^\d+\.|^-|^\*/)] as a condition *)
Definition is_marker (line : string) : bool :=
  match Regex.match_anchored Regex.list_marker line with
  | Some _ => true
  | None => false
  end.

(** [line.replace(/^\d+\.|^-|^\*/, '')] *)
Definition strip_marker (line : string) : string :=
  match Regex.match_anchored Regex.list_marker line with
  | Some (_, rest) => rest
  | None => line
  end.

(** The first keyword of the list that the lowered line contains. *)
Fixpoint first_included (keywords : list string) (line : string) : option string :=
  match keywords with
  | [] => None
  | k :: ks => if includes k (toLowerCase line) then Some k else first_included ks line
  end.

Definition extractMealType (line : string) : string :=
  match first_included ["breakfast"; "lunch"; "dinner"; "snack"] line with
  | Some meal => meal
  | None => "meal"
  end.

Definition patterns : list Regex.regex :=
  [Regex.recipe_pattern; Regex.make_pattern; Regex.try_pattern].

(** The loop of [extractRecipeName]: the first pattern with a match whose
    group is not empty decides, and its group is returned trimmed. *)
Fixpoint first_capture (ps : list Regex.regex) (line : string) : option string :=
  match ps with
  | [] => None
  | p :: ps' =>
      match Regex.search p line with
      | Some (g, _) => if truthy g then Some (trim g) else first_capture ps' line
      | None => first_capture ps' line
      end
  end.

Definition extractRecipeName (line : string) : option string :=
  first_capture patterns line.

Definition extractItemName (line : string) : string :=
  let cleaned := trim (strip_marker line) in
  let words := split " "%char cleaned in
  or_text (head words) "item".

Definition extractCategory (line : string) : string :=
  match first_included ["groceries"; "utilities"; "transport"; "entertainment"] line with
  | Some category => category
  | None => "general"
  end.

Definition extractTaskName (line : string) : string :=
  let cleaned := trim (strip_marker line) in
  let words := split " "%char cleaned in
  or_text (Some (join " " (take 3 words))) "cleaning task".

(** What the visit of one line of a meal-planning answer pushes. *)
Definition meal_visit (line : string) : option Suggestion :=
  if is_marker line then
    let suggestion :=
      meal_object (extractMealType line) (extractRecipeName line) (trim line) in
    if truthy_str (s_recipe_name suggestion) then Some suggestion else None
  else None.

Definition shopping_visit (line : string) : option Suggestion :=
  if is_marker line then Some (item_object (extractItemName line) (trim line))
  else None.

Definition budget_visit (line : string) : option Suggestion :=
  if is_marker line then Some (category_object (extractCategory line) (trim line))
  else None.

Definition cleaning_visit (line : string) : option Suggestion :=
  if is_marker line then Some (task_object (extractTaskName line) (trim line))
  else None.

(** [response.split('\n').filter(line => line.trim())] *)
Definition response_lines (response : string) : list string :=
  List.filter (fun line => truthy (trim line)) (split newline response).

Definition extractSuggestions (response : string) (t : PromptType) : list Suggestion :=
  let lines := response_lines response in
  let suggestions :=
    match t with
    | meal_planning => forEach_push meal_visit lines []
    | shopping_optimization => forEach_push shopping_visit lines []
    | budget_analysis => forEach_push budget_visit lines []
    | cleaning_schedule => forEach_push cleaning_visit lines []
    | unlisted _ => [advice_only response]
    end in
  if (0 <? Z.of_nat (length suggestions))%Z then suggestions
  else [advice_only response].

Definition extractReasoning (response : string) : string :=
  let paragraphs := split_str (nl ++ nl) response in
  or_text (head paragraphs) "Local AI analysis completed".

Definition parseOllamaResponse (response : string) (t : PromptType) : AiResponse :=
  let suggestions := extractSuggestions response t in
  {| response_type := t;
     suggestions := suggestions;
     reasoning := extractReasoning response;
     confidence := QArith_base.Qmake 7 10 |}.

(** The text posted to [/api/generate]. *)
Definition request_prompt (w : World) (prompt : AiPrompt) : string :=
  buildSystemPrompt (type prompt) ++ nl ++ nl ++ "User: " ++
  buildUserPrompt w prompt ++ nl ++ nl ++ "Assistant:".

Definition generateSuggestions (w : World) (prompt : AiPrompt) : Result AiResponse :=
  try_catch
    (response ← ollama_generate w (request_prompt w prompt);
     if negb (ok response)
     then Throw ("Ollama API error: " ++ statusText response)
     else
       match body response with
       | Some text => mret (parseOllamaResponse text (type prompt))
       | None => Throw "TypeError: response is not a string"
       end)
    (fun _ => Throw "Failed to generate AI suggestions with local LLM").

Definition checkHealth (w : World) : bool :=
  match ollama_tags w with
  | Ok response => ok response
  | Throw _ => false
  end.

End OllamaService.

(* ===================================================================== *)
(** ** The [/ai/suggestions] route of the backend                          *)
(* ===================================================================== *)

Module AiRoute.

Inductive ReplyBody :=
| SuccessBody (data : AiResponse) (provider : string)
| FailureBody (error : string) (fallback_suggestions : list Suggestion).

Record Reply := { status : Z; payload : ReplyBody }.

Definition type_tag (t : PromptType) : string :=
  match t with
  | meal_planning => "meal_planning"
  | shopping_optimization => "shopping_optimization"
  | budget_analysis => "budget_analysis"
  | cleaning_schedule => "cleaning_schedule"
  | unlisted tag => tag
  end.

Definition with_prep_time (s : Suggestion) (minutes : Z) : Suggestion :=
  {| s_meal := s_meal s; s_recipe_name := s_recipe_name s;
     s_reasoning := s_reasoning s; s_advice := s_advice s;
     s_item := s_item s; s_category := s_category s; s_task := s_task s;
     s_prep_time := Some minutes; s_calories := s_calories s;
     s_protein := s_protein s; s_carbs := s_carbs s; s_fat := s_fat s;
     s_ingredients := s_ingredients s; s_instructions := s_instructions s |}.

Definition with_category (s : Suggestion) (category : string) : Suggestion :=
  {| s_meal := s_meal s; s_recipe_name := s_recipe_name s;
     s_reasoning := s_reasoning s; s_advice := s_advice s;
     s_item := s_item s; s_category := Some category; s_task := s_task s;
     s_prep_time := s_prep_time s; s_calories := s_calories s;
     s_protein := s_protein s; s_carbs := s_carbs s; s_fat := s_fat s;
     s_ingredients := s_ingredients s; s_instructions := s_instructions s |}.

Definition fallbacks : gmap string (list Suggestion) :=
  {[ "meal_planning" :=
       [ with_prep_time
           (meal_object "lunch" (Some "Dutch Broodjes")
              "Quick and traditional Dutch lunch option") 10;
         with_prep_time
           (meal_object "dinner" (Some "Stamppot")
              "Classic Dutch comfort food for dinner") 30 ];
     "shopping_optimization" :=
       [ with_category
           (item_object "Seasonal vegetables"
              "Check local seasonal produce for best prices") "groceries";
         with_category
           (item_object "Store brands" "AH Basic products offer good value")
           "groceries" ];
     "budget_analysis" :=
       [ category_object "groceries"
           "Track weekly spending and compare with Dutch averages" ];
     "cleaning_schedule" :=
       [ task_object "Weekly cleaning"
           "Plan cleaning around your schedule for consistency" ] ]}.

(** [fallbacks[type] || [{ advice }]].  The route calls it with the [type]
    its schema let through, one of the four keys; for a string that is no
    key the table of the embedding answers [None], as the object of the
    source does except for the names of [Object.prototype]. *)
Definition getFallbackSuggestions (tag : string) : list Suggestion :=
  match fallbacks !! tag with
  | Some l => l
  | None =>
      [advice_only "AI services temporarily unavailable. Please try again later."]
  end.

Definition unavailable (t : PromptType) : Reply :=
  {| status := 503;
     payload := FailureBody "AI service temporarily unavailable"
                  (getFallbackSuggestions (type_tag t)) |}.

(** The handler of [POST /suggestions]: health probe, then one call.
    Fastify runs it on a body that passed the schema of the route (the
    required properties, a [type] of the enum); another body is answered
    400 before the handler. *)
Definition suggestions (w : World) (request_body : AiPrompt) : Reply :=
  let prompt := request_body in
  let attempt : Result Reply :=
    if OllamaService.checkHealth w then
      response ← OllamaService.generateSuggestions w prompt;
      mret {| status := 200; payload := SuccessBody response "ollama" |}
    else mret (unavailable (type request_body)) in
  match attempt with
  | Ok reply => reply
  | Throw _ => unavailable (type request_body)
  end.

End AiRoute.

(* ===================================================================== *)
(** ** The mobile client: services/aiService.ts                           *)
(* ===================================================================== *)

Inductive MealType := breakfast | lunch | dinner | snack.

#[global] Instance MealType_eq_dec : EqDecision MealType.
Proof. solve_decision. Defined.

Module Nutrition.
Record t := {
  calories : Z;
  protein : Z;
  carbs : Z;
  fat : Z;
  fiber : option Z
}.
End Nutrition.

(** The declared type of the argument of [getMealRecommendations]. *)
Module Params.
Record t := {
  currentNutrition : Nutrition.t;
  targets : Nutrition.t;
  preferences : option (list string);
  calendarEvents : option (list CalendarEvent);
  mealType : option MealType
}.
End Params.

(** The [deficit] object both [buildMealRecommendationPrompt] and
    [getEnhancedFallbackRecommendations] compute first. *)
Module Deficit.
Record t := {
  calories : Z;
  protein : Z;
  carbs : Z;
  fat : Z;
  fiber : Z
}.

Definition compute (params : Params.t) : t :=
  let target := Params.targets params in
  let current := Params.currentNutrition params in
  {| calories := Nutrition.calories target - Nutrition.calories current;
     protein := Nutrition.protein target - Nutrition.protein current;
     carbs := Nutrition.carbs target - Nutrition.carbs current;
     fat := Nutrition.fat target - Nutrition.fat current;
     fiber := or_num (Nutrition.fiber target) 30
              - or_num (Nutrition.fiber current) 0 |}.
End Deficit.

Module AIService.

Import Text.

Record MealRecommendation := {
  id : string;
  name : string;
  description : string;
  reason : string;
  prepTime : Z;
  difficulty : Z;
  calories : Z;
  protein : Z;
  carbs : Z;
  fat : Z;
  ingredients : list string;
  instructions : list string;
  tags : list string;
  mealType : MealType;
  sportsFriendly : bool
}.

(** The string a meal type is on the wire and as a property key. *)
Definition meal_key (m : MealType) : string :=
  match m with
  | breakfast => "breakfast"
  | lunch => "lunch"
  | dinner => "dinner"
  | snack => "snack"
  end.

Definition meal_dutch (m : MealType) : string :=
  match m with
  | breakfast => "ontbijt"
  | lunch => "lunch"
  | dinner => "diner"
  | snack => "tussendoortje"
  end.

Definition buildMealRecommendationPrompt (params : Params.t) : string :=
  let deficit := Deficit.compute params in
  let prompt :=
    "Ik heb vandaag al " ++
    render (Nutrition.calories (Params.currentNutrition params)) ++
    " calorieën gehad van mijn " ++
    render (Nutrition.calories (Params.targets params)) ++ " calorie doel. " in
  let prompt :=
    prompt ++ "Ik heb nog " ++ render (Deficit.calories deficit) ++
    " calorieën, " ++ render (Deficit.protein deficit) ++ "g eiwit, " ++
    render (Deficit.carbs deficit) ++ "g koolhydraten, en " ++
    render (Deficit.fat deficit) ++ "g vet nodig. " in
  let prompt :=
    if (0 <? Deficit.fiber deficit)%Z
    then prompt ++ "Ook zou ik nog " ++ render (Deficit.fiber deficit) ++
         "g vezels moeten hebben. "
    else prompt in
  let prompt :=
    match Params.mealType params with
    | Some m => prompt ++ "Geef me aanbevelingen voor " ++ meal_dutch m ++ ". "
    | None => prompt
    end in
  prompt ++
  "Geef specifieke recepten met ingrediënten en voedingswaarden die passen bij Nederlandse maaltijdpatronen.".

(** ** The keyword estimates *)

(** Each estimate starts with the guard [if (!recipeName) return ...] and
    then looks for keywords in the lowered name. *)
Definition lowered (recipeName : option string) : string :=
  toLowerCase (default EmptyString recipeName).

Definition estimatePrepTime (recipeName : option string) : Z :=
  if negb (truthy_str recipeName) then 15 else
  let name := lowered recipeName in
  if includes "smoothie" name || includes "yoghurt" name then 5 else
  if includes "salad" name || includes "sandwich" name then 10 else
  if includes "soup" name || includes "stew" name then 45 else
  20.

Definition estimateDifficulty (recipeName : option string) : Z :=
  if negb (truthy_str recipeName) then 2 else
  let name := lowered recipeName in
  if includes "smoothie" name || includes "yoghurt" name then 1 else
  if includes "roast" name || includes "stew" name then 3 else
  2.

Definition estimateCalories (recipeName : option string) : Z :=
  if negb (truthy_str recipeName) then 300 else
  let name := lowered recipeName in
  if includes "salad" name then 250 else
  if includes "smoothie" name then 200 else
  if includes "soup" name then 300 else
  400.

Definition estimateProtein (recipeName : option string) : Z :=
  if negb (truthy_str recipeName) then 15 else
  let name := lowered recipeName in
  if includes "chicken" name || includes "fish" name || includes "meat" name
  then 25 else
  if includes "egg" name then 20 else
  if includes "yoghurt" name then 12 else
  15.

Definition estimateCarbs (recipeName : option string) : Z :=
  if negb (truthy_str recipeName) then 30 else
  let name := lowered recipeName in
  if includes "salad" name then 15 else
  if includes "bread" name || includes "pasta" name then 45 else
  30.

Definition estimateFat (recipeName : option string) : Z :=
  if negb (truthy_str recipeName) then 12 else
  let name := lowered recipeName in
  if includes "avocado" name || includes "nuts" name then 18 else
  if includes "salmon" name || includes "fish" name then 15 else
  12.

Definition getDefaultIngredients (recipeName : option string) : list string :=
  if negb (truthy_str recipeName) then ["diverse ingrediënten"] else
  ["hoofdingrediënt"; "groenten"; "kruiden"; "olie"].

Definition determineMealType (name : option string) : MealType :=
  if negb (truthy_str name) then lunch else
  let lowerName := lowered name in
  if includes "breakfast" lowerName || includes "ontbijt" lowerName
  then breakfast else
  if includes "dinner" lowerName || includes "diner" lowerName then dinner else
  if includes "snack" lowerName || includes "tussendoortje" lowerName
  then snack else
  lunch.

Definition isSportsFriendly (name : option string) : bool :=
  if negb (truthy_str name) then false else
  let lowerName := lowered name in
  includes "protein" lowerName || includes "recovery" lowerName
  || includes "energy" lowerName.

(** ** Normalisation of the suggestions of an answer *)

(** The record built for the suggestion at [index]. *)
Definition recommendation (now : Z) (index : Z) (suggestion : Suggestion)
    : MealRecommendation :=
  let recipe_name := s_recipe_name suggestion in
  {| id := "ai-" ++ render now ++ "-" ++ render index;
     name := or_text (or_str recipe_name (s_meal suggestion)) "Maaltijdvoorstel";
     description :=
       or_text (or_str (s_reasoning suggestion) (s_advice suggestion))
         "AI-gegenereerd voorstel";
     reason := or_text (s_reasoning suggestion) "Aanbevolen door AI";
     prepTime := or_num (s_prep_time suggestion) (estimatePrepTime recipe_name);
     difficulty := estimateDifficulty recipe_name;
     calories := or_num (s_calories suggestion) (estimateCalories recipe_name);
     protein := or_num (s_protein suggestion) (estimateProtein recipe_name);
     carbs := or_num (s_carbs suggestion) (estimateCarbs recipe_name);
     fat := or_num (s_fat suggestion) (estimateFat recipe_name);
     ingredients :=
       or_list (s_ingredients suggestion) (getDefaultIngredients recipe_name);
     instructions :=
       or_list (s_instructions suggestion)
         ["Bereid volgens traditionele Nederlandse wijze"];
     tags := ["AI-aanbeveling"; "personalized"];
     mealType := determineMealType (or_str (s_meal suggestion) recipe_name);
     sportsFriendly :=
       isSportsFriendly (or_str recipe_name (s_advice suggestion)) |}.

(** [suggestions.forEach((suggestion, index) => ...)] from [index] on: a
    suggestion is kept when it has a [meal] or a [recipe_name]. *)
Fixpoint forEach_from (now : Z) (index : Z) (suggestions : list Suggestion)
    (recommendations : list MealRecommendation) : list MealRecommendation :=
  match suggestions with
  | [] => recommendations
  | suggestion :: rest =>
      forEach_from now (index + 1) rest
        (if truthy_str (s_meal suggestion) || truthy_str (s_recipe_name suggestion)
         then recommendations ++ [recommendation now index suggestion]
         else recommendations)
  end.

Definition parseMealRecommendations (now : Z) (suggestions : list Suggestion)
    : list MealRecommendation :=
  forEach_from now 0 suggestions [].

(** ** The fallback catalog *)

Definition breakfast_fallback : MealRecommendation :=
  {| id := "fallback-breakfast-1";
     name := "Havermout met Fruit";
     description := "Voedzame havermout met seizoensfruit en noten";
     reason := "Hoge vezels en langzame koolhydraten voor stabiele energie";
     prepTime := 5; difficulty := 1;
     calories := 340; protein := 12; carbs := 52; fat := 8;
     ingredients := ["havermout"; "melk"; "banaan"; "walnoten"; "honing"];
     instructions :=
       ["Kook havermout met melk"; "Voeg fruit toe"; "Garneer met noten"];
     tags := ["vezels"; "gezond"; "snel"];
     mealType := breakfast;
     sportsFriendly := true |}.

Definition lunch_fallback : MealRecommendation :=
  {| id := "fallback-lunch-1";
     name := "Volkoren Sandwich met Ei";
     description := "Protein-rijke lunch met volkoren brood";
     reason := "Goede balans van eiwitten en complexe koolhydraten";
     prepTime := 10; difficulty := 1;
     calories := 380; protein := 18; carbs := 35; fat := 16;
     ingredients := ["volkoren brood"; "ei"; "avocado"; "tomaat"; "rucola"];
     instructions := ["Toast brood"; "Bakje ei"; "Beleg met groenten"];
     tags := ["eiwit"; "verzadigend"];
     mealType := lunch;
     sportsFriendly := true |}.

Definition dinner_fallback : MealRecommendation :=
  {| id := "fallback-dinner-1";
     name := "Zalm met Zoete Aardappel";
     description := "Omega-3 rijke zalm met gepofte zoete aardappel";
     reason := "Hoog in omega-3 en complexe koolhydraten";
     prepTime := 25; difficulty := 2;
     calories := 450; protein := 35; carbs := 38; fat := 18;
     ingredients :=
       ["zalm filet"; "zoete aardappel"; "broccoli"; "olijfolie"; "citroen"];
     instructions := ["Grill zalm"; "Bak zoete aardappel"; "Stoom broccoli"];
     tags := ["omega-3"; "gezond"];
     mealType := dinner;
     sportsFriendly := true |}.

Definition fallbacks : gmap string (list MealRecommendation) :=
  {[ "breakfast" := [breakfast_fallback];
     "lunch" := [lunch_fallback];
     "dinner" := [dinner_fallback] ]}.

(** [fallbacks[mealType || 'lunch'] || fallbacks.lunch] *)
Definition getFallbackMealRecommendations (mealType : option string)
    : list MealRecommendation :=
  default [lunch_fallback] (fallbacks !! or_text mealType "lunch").

(** The three records of the deficit rules. *)
Definition high_protein (params : Params.t) (deficit : Deficit.t)
    : MealRecommendation :=
  {| id := "fallback-protein-1";
     name := "Kipfilet met Quinoa";
     description := "Hoge eiwit maaltijd met magere kipfilet en quinoa";
     reason :=
       "Je hebt nog " ++ render (Deficit.protein deficit) ++
       "g eiwit nodig vandaag";
     prepTime := 20; difficulty := 2;
     calories := Z.min (Deficit.calories deficit) 450;
     protein := 35; carbs := 40; fat := 8;
     ingredients := ["kipfilet"; "quinoa"; "broccoli"; "olijfolie"];
     instructions := ["Grill kipfilet"; "Kook quinoa"; "Stoom broccoli"];
     tags := ["hoog eiwit"; "magere keuze"];
     mealType := default lunch (Params.mealType params);
     sportsFriendly := true |}.

Definition high_fiber (params : Params.t) (deficit : Deficit.t)
    : MealRecommendation :=
  {| id := "fallback-fiber-1";
     name := "Volkoren Wrap met Bonen";
     description := "Vezelrijke wrap met zwarte bonen en groenten";
     reason :=
       "Goede bron van vezels (" ++ render (Deficit.fiber deficit) ++
       "g tekort)";
     prepTime := 10; difficulty := 1;
     calories := Z.min (Deficit.calories deficit) 380;
     protein := 15; carbs := 55; fat := 12;
     ingredients := ["volkoren wrap"; "zwarte bonen"; "paprika"; "avocado"];
     instructions := ["Verwarm wrap"; "Voeg bonen toe"; "Rol met groenten"];
     tags := ["hoge vezels"; "vegetarisch"];
     mealType := default lunch (Params.mealType params);
     sportsFriendly := false |}.

Definition energy_dense (deficit : Deficit.t) : MealRecommendation :=
  {| id := "fallback-energy-1";
     name := "Nederlandse Stamppot";
     description := "Traditionele Nederlandse stamppot met worst";
     reason :=
       "Energierijke maaltijd voor je resterende " ++
       render (Deficit.calories deficit) ++ " calorieën";
     prepTime := 30; difficulty := 2;
     calories := Z.min (Deficit.calories deficit) 550;
     protein := 22; carbs := 65; fat := 18;
     ingredients := ["aardappelen"; "boerenkool"; "rookworst"; "ui"];
     instructions :=
       ["Kook aardappelen"; "Stamp met boerenkool"; "Voeg worst toe"];
     tags := ["traditioneel"; "winters"; "verzadigend"];
     mealType := dinner;
     sportsFriendly := false |}.

Definition getEnhancedFallbackRecommendations (params : Params.t)
    : list MealRecommendation :=
  let deficit := Deficit.compute params in
  let recommendations : list MealRecommendation := [] in
  let recommendations :=
    if (20 <? Deficit.protein deficit)%Z
    then (recommendations ++ [high_protein params deficit])%list
    else recommendations in
  let recommendations :=
    if (15 <? Deficit.fiber deficit)%Z
    then (recommendations ++ [high_fiber params deficit])%list
    else recommendations in
  let recommendations :=
    if (500 <? Deficit.calories deficit)%Z
    then (recommendations ++ [energy_dense deficit])%list
    else recommendations in
  if (Z.of_nat (length recommendations) =? 0)%Z
  then getFallbackMealRecommendations (meal_key <$> Params.mealType params)
  else recommendations.

(** ** The request *)

Definition to_object (n : Nutrition.t) : NutritionObject :=
  {| o_calories := Some (Nutrition.calories n);
     o_protein := Some (Nutrition.protein n);
     o_carbs := Some (Nutrition.carbs n);
     o_fat := Some (Nutrition.fat n) |}.

Definition build_prompt (w : World) (params : Params.t) : AiPrompt :=
  {| type := meal_planning;
     context :=
       {| calendar_events := Some (default [] (Params.calendarEvents params));
          user_preferences :=
            Some {| dietary := Some (default [] (Params.preferences params));
                    nutrition_goals := Some (to_object (Params.targets params));
                    current_nutrition :=
                      Some (to_object (Params.currentNutrition params));
                    meals_today := None |};
          current_date := now w;
          location := "Netherlands" |};
     user_input := buildMealRecommendationPrompt params |}.

(** [fetch(baseUrl + '/ai/suggestions', ...)]: the route's reply, or a
    network error. *)
Definition post_suggestions (w : World) (prompt : AiPrompt) : Result AiRoute.Reply :=
  if backend_reachable w then Ok (AiRoute.suggestions w prompt)
  else Throw "Network request failed".

(** [response.ok]: a status in 200..299 *)
Definition response_ok (r : AiRoute.Reply) : bool :=
  (200 <=? AiRoute.status r)%Z && (AiRoute.status r <=? 299)%Z.

(** [await response.text()], of which only the error message is kept. *)
Definition response_text (r : AiRoute.Reply) : string :=
  match AiRoute.payload r with
  | AiRoute.SuccessBody _ _ => EmptyString
  | AiRoute.FailureBody error _ => error
  end.

(** [data.data.suggestions] of the parsed body *)
Definition data_suggestions (r : AiRoute.Reply) : Result (list Suggestion) :=
  match AiRoute.payload r with
  | AiRoute.SuccessBody data _ => Ok (suggestions data)
  | AiRoute.FailureBody _ _ =>
      Throw "TypeError: Cannot read properties of undefined"
  end.

Definition getMealRecommendations (w : World) (params : Params.t)
    : Result (list MealRecommendation) :=
  try_catch
    (let prompt := build_prompt w params in
     response ← post_suggestions w prompt;
     if negb (response_ok response)
     then Throw ("AI Service error: " ++ render (AiRoute.status response) ++
                 " - " ++ response_text response)
     else
       suggestions ← data_suggestions response;
       mret (parseMealRecommendations (now w) suggestions))
    (fun error => mret (getEnhancedFallbackRecommendations params)).

End AIService.

(* ===================================================================== *)
(** ** Vocabulary of the properties                                       *)
(* ===================================================================== *)

(** The six numeric fields of a recommendation are non-negative. *)
Definition non_negative_fields (r : AIService.MealRecommendation) : Prop :=
  0 <= AIService.prepTime r /\ 0 <= AIService.difficulty r /\
  0 <= AIService.calories r /\ 0 <= AIService.protein r /\
  0 <= AIService.carbs r /\ 0 <= AIService.fat r.

(** A numeric property of a suggestion is absent or non-negative. *)
Definition absent_or_non_negative (v : option Z) : Prop :=
  match v with
  | Some n => 0 <= n
  | None => True
  end.

Definition supplied_non_negative (s : Suggestion) : Prop :=
  absent_or_non_negative (s_prep_time s) /\
  absent_or_non_negative (s_calories s) /\
  absent_or_non_negative (s_protein s) /\
  absent_or_non_negative (s_carbs s) /\
  absent_or_non_negative (s_fat s).

(** The estimates stand in for what the suggestion [s] omitted. *)
Definition estimates_substituted (s : Suggestion) (r : AIService.MealRecommendation)
    : Prop :=
  let recipe := s_recipe_name s in
  (s_prep_time s = None -> AIService.prepTime r = AIService.estimatePrepTime recipe) /\
  AIService.difficulty r = AIService.estimateDifficulty recipe /\
  (s_calories s = None -> AIService.calories r = AIService.estimateCalories recipe) /\
  (s_protein s = None -> AIService.protein r = AIService.estimateProtein recipe) /\
  (s_carbs s = None -> AIService.carbs r = AIService.estimateCarbs recipe) /\
  (s_fat s = None -> AIService.fat r = AIService.estimateFat recipe).

(** The text the backend sends to Ollama for the request [params]. *)
Definition llm_request (w : World) (params : Params.t) : string :=
  OllamaService.request_prompt w (AIService.build_prompt w params).

(** The health probe fails: network failure or a non-success status. *)
Definition probe_fails (w : World) : Prop :=
  match ollama_tags w with
  | Ok response => ok response = false
  | Throw _ => True
  end.

(** The generate call fails the same way. *)
Definition generate_fails (w : World) (params : Params.t) : Prop :=
  match ollama_generate w (llm_request w params) with
  | Ok response => ok response = false
  | Throw _ => True
  end.

(** The LLM endpoint is unavailable or answers with a non-success status. *)
Definition llm_unavailable (w : World) (params : Params.t) : Prop :=
  probe_fails w \/ generate_fails w params.

(** Ollama answers with success, but the answer has no [response] text. *)
Definition completion_malformed (w : World) (params : Params.t) : Prop :=
  match ollama_generate w (llm_request w params) with
  | Ok response => body response = None
  | Throw _ => False
  end.

(** The whole LLM path succeeds with the completion [text]. *)
Definition llm_answers (w : World) (params : Params.t) (text : string) : Prop :=
  backend_reachable w = true /\
  OllamaService.checkHealth w = true /\
  exists response,
    ollama_generate w (llm_request w params) = Ok response /\
    ok response = true /\ body response = Some text.

(** No threshold of the fallback rules is crossed. *)
Definition below_thresholds (params : Params.t) : Prop :=
  let deficit := Deficit.compute params in
  Deficit.protein deficit <= 20 /\ Deficit.fiber deficit <= 15 /\
  Deficit.calories deficit <= 500.

(** The first pattern of the list, in order, with a match on the line. *)
Fixpoint first_hit (ps : list Regex.regex) (line : string) : option Regex.hit :=
  match ps with
  | [] => None
  | p :: ps' =>
      match Regex.search p line with
      | Some h => Some h
      | None => first_hit ps' line
      end
  end.

(** Some dish-name pattern matches the line. *)
Definition dish_pattern_matches (line : string) : Prop :=
  exists p, In p OllamaService.patterns /\ is_Some (Regex.search p line).

(** Every match of the continuation [k] captured at least one character. *)
Definition captures_text (k : string -> option Regex.hit) : Prop :=
  forall s h, k s = Some h -> fst h <> EmptyString.

(** The record the default table holds for a requested meal type: there
    is none for a snack, which gets the lunch record, as does a request
    without meal type. *)
Definition default_record (m : option MealType) : AIService.MealRecommendation :=
  match m with
  | Some breakfast => AIService.breakfast_fallback
  | Some dinner => AIService.dinner_fallback
  | Some lunch | Some snack | None => AIService.lunch_fallback
  end.

(** A suggestion the normalisation keeps: it has a [meal] or a [recipe_name]. *)
Definition kept (s : Suggestion) : bool :=
  truthy_str (s_meal s) || truthy_str (s_recipe_name s).

(** ** Concrete requests used below *)

Definition nutrition (kcal p c f : Z) (fib : option Z) : Nutrition.t :=
  {| Nutrition.calories := kcal; Nutrition.protein := p; Nutrition.carbs := c;
     Nutrition.fat := f; Nutrition.fiber := fib |}.

Definition request (current target : Nutrition.t) (m : option MealType) : Params.t :=
  {| Params.currentNutrition := current; Params.targets := target;
     Params.preferences := None; Params.calendarEvents := None;
     Params.mealType := m |}.

Definition daily_goal : Nutrition.t := nutrition 2200 150 250 80 (Some 30).

(** Protein short by 25 g, fibre by 5 g, energy by 100 kcal. *)
Definition protein_short : Params.t :=
  request (nutrition 2100 125 240 75 (Some 25)) daily_goal (Some dinner).

(** The day's goals are met. *)
Definition goals_met (m : option MealType) : Params.t :=
  request daily_goal daily_goal m.

(** 800 kcal over the energy goal, 100 g short on protein. *)
Definition over_target : Params.t :=
  request (nutrition 3000 50 100 30 None) (nutrition 2200 150 250 80 (Some 25))
    (Some snack).

Definition http_ok {B : Type} (b : B) : HttpResponse B :=
  {| ok := true; statusText := "OK"; body := b |}.

(** Ollama is down. *)
Definition ollama_down : World :=
  {| ollama_tags := Throw "fetch failed";
     ollama_generate := fun _ => Throw "fetch failed";
     backend_reachable := true;
     now := 1700000000000;
     toLocaleDateString := fun _ => "2-11-2026";
     toLocaleString := fun _ => "2-11-2026, 12:00:00" |}.

(** Ollama is up and completes every prompt with [text]. *)
Definition ollama_says (text : string) : World :=
  {| ollama_tags := Ok (http_ok tt);
     ollama_generate := fun _ => Ok (http_ok (Some text));
     backend_reachable := true;
     now := 1700000000000;
     toLocaleDateString := fun _ => "2-11-2026";
     toLocaleString := fun _ => "2-11-2026, 12:00:00" |}.

(** A suggestion that carries a negative energy value. *)
Definition negative_energy : Suggestion :=
  {| s_meal := None; s_recipe_name := Some "Soep"; s_reasoning := None;
     s_advice := None; s_item := None; s_category := None; s_task := None;
     s_prep_time := None; s_calories := Some (-5); s_protein := None;
     s_carbs := None; s_fat := None; s_ingredients := None;
     s_instructions := None |}.

(* ===================================================================== *)
(** ** The other routes of the AI plugin and their client calls           *)
(* ===================================================================== *)

(** [GET /ai/status] *)
Module AiStatusRoute.

(** [{ available, url }] *)
Record Availability := { available : bool; url : string }.

(** The [data] object of the status body, as the client reads it: the
    handler writes [ollama] and [strategy]; it writes no [claude]. *)
Record StatusData := {
  ollama : option Availability;
  claude : option Availability;
  strategy : string
}.

Inductive ReplyBody :=
| SuccessBody (data : StatusData)
| FailureBody (error : string).

Record Reply := { status : Z; payload : ReplyBody }.

(** The handler; [env_url] is [process.env.OLLAMA_URL]. *)
Definition handler (w : World) (env_url : option string) : Reply :=
  let attempt : Result Reply :=
    let ollamaHealthy := OllamaService.checkHealth w in
    mret {| status := 200;
            payload :=
              SuccessBody
                {| ollama :=
                     Some {| available := ollamaHealthy;
                             url := or_text env_url "http://localhost:11434" |};
                   claude := None;
                   strategy := "local-only (Ollama)" |} |} in
  match attempt with
  | Ok reply => reply
  | Throw _ =>
      {| status := 500; payload := FailureBody "Failed to check AI service status" |}
  end.

End AiStatusRoute.

(** [POST /ai/quick-meal-suggestions] *)
Module AiQuickRoute.

Record RequestBody := {
  q_calendar_events : list CalendarEvent;
  q_dietary_preferences : option (list string)
}.

Inductive ReplyBody :=
| SuccessBody (data : AiResponse)
| FailureBody (error : string).

Record Reply := { status : Z; payload : ReplyBody }.

Definition prompt_of (w : World) (request_body : RequestBody) : AiPrompt :=
  {| type := meal_planning;
     context :=
       {| calendar_events := Some (q_calendar_events request_body);
          user_preferences :=
            Some {| dietary := Some (default [] (q_dietary_preferences request_body));
                    nutrition_goals := None;
                    current_nutrition := None;
                    meals_today := None |};
          current_date := now w;
          location := "Netherlands" |};
     user_input := "Suggest meals that fit my schedule for today" |}.

Definition handler (w : World) (request_body : RequestBody) : Reply :=
  let attempt : Result Reply :=
    let prompt := prompt_of w request_body in
    if negb (OllamaService.checkHealth w)
    then Throw "Ollama service unavailable"
    else
      response ← OllamaService.generateSuggestions w prompt;
      mret {| status := 200; payload := SuccessBody response |} in
  match attempt with
  | Ok reply => reply
  | Throw _ =>
      {| status := 500; payload := FailureBody "Failed to generate meal suggestions" |}
  end.

End AiQuickRoute.

(** The [ChatMessage] of the client. *)
Module ChatMessage.
Inductive Sender := user | assistant.

Record t := {
  id : string;
  type : Sender;
  content : string;
  timestamp : Z;
  recommendations : option (list AIService.MealRecommendation)
}.
End ChatMessage.

(** The [context] argument of [chatNutritionAdvice].  [recentMeals] is
    copied into the request as [recent_meals], which no code reads. *)
Module ChatContext.
Record t := {
  currentNutrition : NutritionObject;
  targets : NutritionObject;
  recentMeals : option (list string);
  preferences : option (list string)
}.
End ChatContext.

(** The result of [getServiceStatus]. *)
Module ServiceStatus.
Record t := { ollama : bool; claude : bool; strategy : string }.
End ServiceStatus.

(** The remaining methods of the client's [AIService]. *)
Module AIServiceCalls.

(** [response.ok] for a status code *)
Definition status_ok (status : Z) : bool :=
  (200 <=? status)%Z && (status <=? 299)%Z.

(** [response.statusText] for the codes the backend sends *)
Definition status_text (status : Z) : string :=
  if (status =? 200)%Z then "OK"
  else if (status =? 500)%Z then "Internal Server Error"
  else if (status =? 503)%Z then "Service Unavailable"
  else EmptyString.

Definition chat_prompt (w : World) (message : string) (ctx : ChatContext.t)
    : AiPrompt :=
  {| type := meal_planning;
     context :=
       {| calendar_events := Some [];
          user_preferences :=
            Some {| dietary := Some (default [] (ChatContext.preferences ctx));
                    nutrition_goals := Some (ChatContext.targets ctx);
                    current_nutrition := Some (ChatContext.currentNutrition ctx);
                    meals_today := None |};
          current_date := now w;
          location := "Netherlands" |};
     user_input :=
       "Nutrition consultation: " ++ message ++
       ". Please provide personalized advice and specific meal suggestions." |}.

(** [data.data] of the parsed body of [/ai/suggestions] *)
Definition data_of (r : AiRoute.Reply) : Result AiResponse :=
  match AiRoute.payload r with
  | AiRoute.SuccessBody data _ => Ok data
  | AiRoute.FailureBody _ _ => Throw "TypeError: Cannot read properties of undefined"
  end.

Definition apology : string :=
  "Sorry, ik kan momenteel geen voedingsadvies geven. Probeer het later opnieuw.".

Definition chatNutritionAdvice (w : World) (message : string) (ctx : ChatContext.t)
    : Result ChatMessage.t :=
  try_catch
    (let prompt := chat_prompt w message ctx in
     response ← AIService.post_suggestions w prompt;
     if negb (status_ok (AiRoute.status response))
     then Throw ("AI Service error: " ++ status_text (AiRoute.status response))
     else
       aiResponse ← data_of response;
       mret {| ChatMessage.id := Text.render (now w);
               ChatMessage.type := ChatMessage.assistant;
               ChatMessage.content :=
                 or_text (Some (reasoning aiResponse))
                   "Hier zijn mijn aanbevelingen voor je voeding:";
               ChatMessage.timestamp := now w;
               ChatMessage.recommendations :=
                 Some (AIService.parseMealRecommendations (now w)
                         (suggestions aiResponse)) |})
    (fun error =>
       mret {| ChatMessage.id := Text.render (now w);
               ChatMessage.type := ChatMessage.assistant;
               ChatMessage.content := apology;
               ChatMessage.timestamp := now w;
               ChatMessage.recommendations := Some [] |}).

(** [fetch(baseUrl + '/ai/quick-meal-suggestions', ...)] *)
Definition post_quick (w : World) (request_body : AiQuickRoute.RequestBody)
    : Result AiQuickRoute.Reply :=
  if backend_reachable w then Ok (AiQuickRoute.handler w request_body)
  else Throw "Network request failed".

Definition quick_suggestions (r : AiQuickRoute.Reply) : Result (list Suggestion) :=
  match AiQuickRoute.payload r with
  | AiQuickRoute.SuccessBody data => Ok (suggestions data)
  | AiQuickRoute.FailureBody _ =>
      Throw "TypeError: Cannot read properties of undefined"
  end.

Definition getQuickMealSuggestions (w : World) (calendarEvents : list CalendarEvent)
    : Result (list AIService.MealRecommendation) :=
  try_catch
    (response ←
       post_quick w
         {| AiQuickRoute.q_calendar_events := calendarEvents;
            AiQuickRoute.q_dietary_preferences := Some [] |};
     if negb (status_ok (AiQuickRoute.status response))
     then Throw ("AI Service error: " ++ status_text (AiQuickRoute.status response))
     else
       suggestions ← quick_suggestions response;
       mret (AIService.parseMealRecommendations (now w) suggestions))
    (fun error => mret []).

(** [fetch(baseUrl + '/ai/status')] *)
Definition get_status (w : World) (env_url : option string)
    : Result AiStatusRoute.Reply :=
  if backend_reachable w then Ok (AiStatusRoute.handler w env_url)
  else Throw "Network request failed".

(** [data.data] of the status body *)
Definition status_data (r : AiStatusRoute.Reply) : Result AiStatusRoute.StatusData :=
  match AiStatusRoute.payload r with
  | AiStatusRoute.SuccessBody data => Ok data
  | AiStatusRoute.FailureBody _ =>
      Throw "TypeError: Cannot read properties of undefined"
  end.

(** [x.available] of a property [x] that may be missing *)
Definition available_of (x : option AiStatusRoute.Availability) : Result bool :=
  match x with
  | Some a => Ok (AiStatusRoute.available a)
  | None => Throw "TypeError: Cannot read properties of undefined (reading 'available')"
  end.

Definition offline : ServiceStatus.t :=
  {| ServiceStatus.ollama := false;
     ServiceStatus.claude := false;
     ServiceStatus.strategy := "offline" |}.

Definition getServiceStatus (w : World) (env_url : option string)
    : Result ServiceStatus.t :=
  try_catch
    (response ← get_status w env_url;
     if negb (status_ok (AiStatusRoute.status response))
     then Throw "Failed to check AI status"
     else
       data ← status_data response;
       ollama ← available_of (AiStatusRoute.ollama data);
       claude ← available_of (AiStatusRoute.claude data);
       mret {| ServiceStatus.ollama := ollama;
               ServiceStatus.claude := claude;
               ServiceStatus.strategy := AiStatusRoute.strategy data |})
    (fun error => mret offline).

End AIServiceCalls.

(** ** Vocabulary of the further properties *)

(** Every character of the text is a decimal digit. *)
Fixpoint all_digits (s : string) : bool :=
  match s with
  | EmptyString => true
  | String c s' => Text.is_digit c && all_digits s'
  end.

(** Every character of the text passes the test. *)
Fixpoint all_chars (p : ascii -> bool) (s : string) : bool :=
  match s with
  | EmptyString => true
  | String c s' => p c && all_chars p s'
  end.

Definition not_minus (c : ascii) : bool := negb (Ascii.eqb c "-"%char).
Definition not_blank_char (c : ascii) : bool := negb (Ascii.eqb c " "%char).

(** The meal type the normalisation derives from the [meal] keyword the
    parser found on a line. *)
Definition meal_of_keyword (meal : string) : MealType :=
  if String.eqb meal "breakfast" then breakfast
  else if String.eqb meal "dinner" then dinner
  else if String.eqb meal "snack" then snack
  else lunch.

(** The request text of the quick route. *)
Definition quick_request (w : World) (events : list CalendarEvent) : string :=
  OllamaService.request_prompt w
    (AiQuickRoute.prompt_of w
       {| AiQuickRoute.q_calendar_events := events;
          AiQuickRoute.q_dietary_preferences := Some [] |}).

(** The request text of a chat message. *)
Definition chat_request (w : World) (message : string) (ctx : ChatContext.t) : string :=
  OllamaService.request_prompt w (AIServiceCalls.chat_prompt w message ctx).

(** The outcome of the generate call for a request text. *)
Definition generate_gives (w : World) (request_text : string) (text : string) : Prop :=
  exists response,
    ollama_generate w request_text = Ok response /\
    ok response = true /\ body response = Some text.

Definition generate_gives_nothing (w : World) (request_text : string) : Prop :=
  forall text, ~ generate_gives w request_text text.

(** The list-marker lines of a response. *)
Definition marker_lines (response : string) : list string :=
  List.filter OllamaService.is_marker (Text.split Text.newline response).

(** The texts the list-marker pattern matches: a hyphen, an asterisk, or
    one or more digits and a period. *)
Definition marker_text (m : string) : Prop :=
  m = "-" \/ m = "*" \/
  exists d, d <> EmptyString /\ all_digits d = true /\ m = d ++ ".".

(** [\d+] *)
Definition digits_atom : Regex.atom := Regex.Atom Text.is_digit Regex.Plus false.

(** The one message [generateSuggestions] throws. *)
Definition masked_error : string :=
  "Failed to generate AI suggestions with local LLM".

(** The name the normalisation gives to a suggestion. *)
Definition name_of (s : Suggestion) : string :=
  or_text (or_str (s_recipe_name s) (s_meal s)) "Maaltijdvoorstel".

(** The records of the suggestions kept, numbered by their position in the
    array, from [index] on. *)
Fixpoint kept_from (now index : Z) (l : list Suggestion)
    : list AIService.MealRecommendation :=
  match l with
  | [] => []
  | s :: rest =>
      if kept s then AIService.recommendation now index s :: kept_from now (index + 1) rest
      else kept_from now (index + 1) rest
  end.

(** The bounds every recommendation of the pipeline respects. *)
Definition within_bounds (r : AIService.MealRecommendation) : Prop :=
  AIService.name r <> EmptyString /\
  5 <= AIService.prepTime r <= 45 /\
  1 <= AIService.difficulty r <= 3 /\
  12 <= AIService.protein r <= 35 /\
  15 <= AIService.carbs r <= 65 /\
  8 <= AIService.fat r <= 18 /\
  AIService.calories r <= 550.

(** A suggestion without numeric properties, as the parser builds them. *)
Definition no_numbers (s : Suggestion) : Prop :=
  s_prep_time s = None /\ s_calories s = None /\ s_protein s = None /\
  s_carbs s = None /\ s_fat s = None.

(** Every match of the continuation [k] captured characters of [p] only. *)
Definition captures_only (p : ascii -> bool) (k : string -> option Regex.hit) : Prop :=
  forall s h, k s = Some h -> all_chars p (fst h) = true.

(** A capturing atom matches characters of [p] only. *)
Definition captures_within (p : ascii -> bool) (a : Regex.atom) : Prop :=
  Regex.captures a = true -> forall c, Regex.cls a c = true -> p c = true.

(** The text is ASCII: every byte is below 128. *)
Definition is_ascii (c : ascii) : bool := (nat_of_ascii c <? 128)%nat.
Definition ascii_text (s : string) : Prop := all_chars is_ascii s = true.

(** A [type] of the enum: what the schema of the route lets through. *)
Definition listed (t : PromptType) : Prop :=
  match t with
  | unlisted _ => False
  | _ => True
  end.

(** A possibly missing amount that is whole and small enough for the
    arithmetic of doubles to be exact on it. *)
Definition exact_amount (v : option Z) : Prop :=
  match v with
  | Some n => - 2 ^ 52 <= n <= 2 ^ 52
  | None => True
  end.

Definition exact_amounts (o : NutritionObject) : Prop :=
  exact_amount (o_calories o) /\ exact_amount (o_protein o) /\
  exact_amount (o_carbs o) /\ exact_amount (o_fat o).

(* ===================================================================== *)
(** ** Lemmas on the loops                                                *)
(* ===================================================================== *)

(** Case analysis on every test of an estimate. *)
Ltac estimate_cases :=
  repeat match goal with
         | |- context [if ?b then _ else _] => destruct b
         end; lia.

Lemma forEach_push_omap {A B : Type} (visit : A -> option B) (l : list A)
    (pushed : list B) :
  forEach_push visit l pushed = (pushed ++ omap visit l)%list.
Proof.
  revert pushed; induction l as [|x l IH]; intros pushed; simpl.
  - now rewrite app_nil_r.
  - rewrite IH. destruct (visit x); simpl; [|reflexivity].
    now rewrite <- app_assoc.
Qed.

Lemma omap_all_None {A B : Type} (visit : A -> option B) (l : list A) :
  (forall x, In x l -> visit x = None) -> omap visit l = [].
Proof.
  induction l as [|x l IH]; intros H; simpl; [reflexivity|].
  rewrite (H x (or_introl eq_refl)). apply IH.
  intros y Hy. apply H. now right.
Qed.

Lemma In_filter_In {A : Type} (f : A -> bool) (x : A) (l : list A) :
  In x (List.filter f l) -> In x l.
Proof. intros H. now apply List.filter_In in H. Qed.

(* ===================================================================== *)
(** ** The response parser                                                *)
(* ===================================================================== *)

Lemma unmarked_lines_push_nothing (visit : string -> option Suggestion)
    (response : string) :
  (forall line, OllamaService.is_marker line = false -> visit line = None) ->
  (forall line, In line (Text.split Text.newline response) ->
                OllamaService.is_marker line = false) ->
  forEach_push visit (OllamaService.response_lines response) [] = [].
Proof.
  intros Hvisit Hlines. rewrite forEach_push_omap. simpl.
  apply omap_all_None. intros line Hin.
  apply Hvisit, Hlines. unfold OllamaService.response_lines in Hin.
  now apply In_filter_In in Hin.
Qed.

(** C7. When no line of the response text matches the list-marker pattern
    (digits and a period, a hyphen or an asterisk at its start), the parser
    returns, for every prompt category, exactly one suggestion record, and
    that record carries the whole response text. *)
Theorem C7_no_marker_single_record (response : string) (t : PromptType) :
  (forall line, In line (Text.split Text.newline response) ->
                OllamaService.is_marker line = false) ->
  suggestions (OllamaService.parseOllamaResponse response t)
  = [advice_only response].
Proof.
  intros Hlines. cbn [OllamaService.parseOllamaResponse suggestions].
  unfold OllamaService.extractSuggestions.
  destruct t; try reflexivity;
    rewrite unmarked_lines_push_nothing; try reflexivity; try assumption;
    intros line Hline;
    unfold OllamaService.meal_visit, OllamaService.shopping_visit,
      OllamaService.budget_visit, OllamaService.cleaning_visit;
    now rewrite Hline.
Qed.

Lemma C7_witness :
  Text.split Text.newline ("Eat more vegetables." ++ Text.nl ++ "Drink water.")
  = ["Eat more vegetables."; "Drink water."] /\
  suggestions
    (OllamaService.parseOllamaResponse
       ("Eat more vegetables." ++ Text.nl ++ "Drink water.") budget_analysis)
  = [advice_only ("Eat more vegetables." ++ Text.nl ++ "Drink water.")].
Proof.
  split; [reflexivity|].
  apply C7_no_marker_single_record.
  intros line Hline. vm_compute in Hline.
  destruct Hline as [<-|[<-|[]]]; reflexivity.
Defined.

(** C9. Whatever the response text and the prompt category, the record the
    parser returns has confidence 0.7 (the rational 7/10). *)
Theorem C9_confidence_constant (response : string) (t : PromptType) :
  confidence (OllamaService.parseOllamaResponse response t)
  = QArith_base.Qmake 7 10.
Proof. reflexivity. Qed.

(** *** Matches of the dish-name patterns capture at least one character *)

Lemma keep_capturing (a : Regex.atom) (c : ascii) (h : Regex.hit) :
  Regex.captures a = true -> fst (Regex.keep a c h) <> EmptyString.
Proof. unfold Regex.keep. intros ->. discriminate. Qed.

Lemma keep_monotone (a : Regex.atom) (c : ascii) (h : Regex.hit) :
  fst h <> EmptyString -> fst (Regex.keep a c h) <> EmptyString.
Proof. unfold Regex.keep. destruct (Regex.captures a); [discriminate|trivial]. Qed.

Lemma star_captures_text (a : Regex.atom) (k : string -> option Regex.hit) :
  captures_text k -> captures_text (Regex.star a k).
Proof.
  intros Hk s. induction s as [|c s IH]; intros h; simpl.
  - apply Hk.
  - destruct (Regex.cls a c); [|apply Hk].
    destruct (Regex.star a k s) as [h'|] eqn:E; [|apply Hk].
    intros [= <-]. apply keep_monotone. now apply IH.
Qed.

Lemma star_after_capture (a : Regex.atom) (k : string -> option Regex.hit)
    (c : ascii) (s : string) (h : Regex.hit) :
  Regex.captures a = true ->
  option_map (Regex.keep a c) (Regex.star a k s) = Some h ->
  fst h <> EmptyString.
Proof.
  intros Ha. destruct (Regex.star a k s); simpl; [|discriminate].
  intros [= <-]. now apply keep_capturing.
Qed.

Lemma group_captures_text (re : Regex.regex) :
  captures_text (Regex.match_here (Regex.name_group :: re)).
Proof.
  intros s h. cbn [Regex.match_here Regex.rep Regex.name_group].
  destruct s as [|c s]; [discriminate|].
  destruct (Regex.cls _ c); [|discriminate].
  now apply star_after_capture.
Qed.

Lemma cons_captures_text (a : Regex.atom) (re : Regex.regex) :
  captures_text (Regex.match_here re) ->
  captures_text (Regex.match_here (a :: re)).
Proof.
  intros Hre s h. cbn [Regex.match_here].
  destruct (Regex.rep a).
  - destruct s as [|c s]; [discriminate|].
    destruct (Regex.cls a c); [|discriminate].
    destruct (Regex.match_here re s) as [h'|] eqn:E; simpl; [|discriminate].
    intros [= <-]. apply keep_monotone. now apply (Hre s).
  - destruct s as [|c s]; [apply Hre|].
    destruct (Regex.cls a c); [|apply Hre].
    destruct (Regex.match_here re s) as [h'|] eqn:E; [|apply Hre].
    intros [= <-]. apply keep_monotone. now apply (Hre s).
  - now apply star_captures_text.
  - destruct s as [|c s]; [discriminate|].
    destruct (Regex.cls a c); [|discriminate].
    destruct (Regex.star a (Regex.match_here re) s) as [h'|] eqn:E; simpl;
      [|discriminate].
    intros [= <-]. apply keep_monotone.
    now apply (star_captures_text a _ Hre s).
Qed.

Lemma search_captures_text (re : Regex.regex) :
  captures_text (Regex.match_here re) -> captures_text (Regex.search re).
Proof.
  intros Hre s. induction s as [|c s IH]; intros h; simpl.
  - destruct (Regex.match_here re EmptyString) eqn:E; [|discriminate].
    intros [= <-]. now apply (Hre EmptyString).
  - destruct (Regex.match_here re (String c s)) eqn:E.
    + intros [= <-]. now apply (Hre (String c s)).
    + apply IH.
Qed.

Lemma patterns_capture_text :
  Forall (fun p => captures_text (Regex.search p)) OllamaService.patterns.
Proof.
  unfold OllamaService.patterns, Regex.recipe_pattern, Regex.make_pattern,
    Regex.try_pattern.
  repeat (apply List.Forall_cons;
          [apply search_captures_text; cbn [Regex.lit_i app];
           repeat first [apply group_captures_text | apply cons_captures_text]|]).
  apply List.Forall_nil.
Qed.

(** The loop of [extractRecipeName] returns the trimmed group of the first
    pattern that matches. *)
Lemma first_capture_first_hit (ps : list Regex.regex) (line : string) :
  Forall (fun p => captures_text (Regex.search p)) ps ->
  OllamaService.first_capture ps line
  = option_map (fun h => Text.trim (fst h)) (first_hit ps line).
Proof.
  induction 1 as [|p ps Hp _ IH]; simpl; [reflexivity|].
  destruct (Regex.search p line) as [[g rest]|] eqn:E; [|exact IH].
  specialize (Hp line (g, rest) E). simpl in Hp.
  destruct g; [congruence|reflexivity].
Qed.

Lemma first_hit_matches (ps : list Regex.regex) (line : string) (h : Regex.hit) :
  first_hit ps line = Some h ->
  exists p, In p ps /\ is_Some (Regex.search p line).
Proof.
  induction ps as [|p ps IH]; simpl; [discriminate|].
  destruct (Regex.search p line) eqn:E.
  - intros _. exists p. split; [now left|]. rewrite E. now eexists.
  - intros H. destruct (IH H) as (q & Hq & Hs). exists q. split; [now right|exact Hs].
Qed.

Lemma first_hit_none (ps : list Regex.regex) (line : string) :
  (forall p, In p ps -> Regex.search p line = None) -> first_hit ps line = None.
Proof.
  induction ps as [|p ps IH]; intros H; simpl; [reflexivity|].
  rewrite (H p (or_introl eq_refl)). apply IH. intros q Hq. apply H. now right.
Qed.

Lemma truthy_not_empty (s : string) : Text.truthy s = true <-> s <> EmptyString.
Proof. destruct s; simpl; split; congruence. Qed.

(** What decides whether the visit of a marker line pushes a record. *)
Lemma meal_visit_pushes (line : string) :
  OllamaService.is_marker line = true ->
  (is_Some (OllamaService.meal_visit line) <->
   exists h, first_hit OllamaService.patterns line = Some h /\
             Text.trim (fst h) <> EmptyString).
Proof.
  intros Hm. unfold OllamaService.meal_visit. rewrite Hm.
  cbn [meal_object s_recipe_name]. unfold OllamaService.extractRecipeName.
  rewrite (first_capture_first_hit _ _ patterns_capture_text).
  destruct (first_hit OllamaService.patterns line) as [h|]; simpl.
  - destruct (Text.truthy (Text.trim (fst h))) eqn:E.
    + split; [|intros _; now eexists].
      intros _. exists h. split; [reflexivity|]. now apply truthy_not_empty.
    + split; [intros [x Hx]; discriminate|].
      intros (h' & [= <-] & Hne). apply truthy_not_empty in Hne. congruence.
  - split; [intros [x Hx]; discriminate|]. intros (h' & Hh & _). discriminate.
Qed.

Lemma no_pattern_no_record (line : string) :
  ~ dish_pattern_matches line -> OllamaService.meal_visit line = None.
Proof.
  intros Hno. destruct (OllamaService.is_marker line) eqn:Hm.
  - destruct (OllamaService.meal_visit line) eqn:E; [|reflexivity].
    exfalso. apply Hno.
    assert (Hs : is_Some (OllamaService.meal_visit line)) by (rewrite E; now eexists).
    apply (meal_visit_pushes line Hm) in Hs. destruct Hs as (h & Hh & _).
    now apply first_hit_matches in Hh.
  - unfold OllamaService.meal_visit. now rewrite Hm.
Qed.

(** C10, as stated, fails: the line [- Recipe: , try pasta] starts with a
    list marker and two of the dish-name patterns match it, yet it produces
    no record, because the first pattern captures one blank, which trims to
    the empty name. *)
Lemma C10_counterexample :
  let line := "- Recipe: , try pasta" in
  OllamaService.is_marker line = true /\
  dish_pattern_matches line /\
  Regex.search Regex.recipe_pattern line = Some (" ", ", try pasta") /\
  Regex.search Regex.try_pattern line = Some ("pasta", "") /\
  OllamaService.meal_visit line = None /\
  OllamaService.extractSuggestions line meal_planning = [advice_only line].
Proof.
  cbv zeta. repeat split; try reflexivity.
  exists Regex.recipe_pattern. split; [now left|]. now eexists.
Qed.

(** C10, amended. For the meal-planning category, a line that matches the
    list-marker pattern produces a suggestion record if and only if the
    first dish-name pattern that matches it (in the order recipe, make,
    try) captures text that is not blank; a produced record therefore
    implies that some pattern matches; and a response whose marker lines
    match no dish-name pattern yields the single generic record with the
    full text. *)
Theorem C10_record_iff_first_capture_not_blank :
  (forall line,
     OllamaService.is_marker line = true ->
     (is_Some (OllamaService.meal_visit line) <->
      exists h, first_hit OllamaService.patterns line = Some h /\
                Text.trim (fst h) <> EmptyString)) /\
  (forall line,
     is_Some (OllamaService.meal_visit line) -> dish_pattern_matches line) /\
  (forall response,
     (forall line, In line (Text.split Text.newline response) ->
                   OllamaService.is_marker line = true ->
                   ~ dish_pattern_matches line) ->
     OllamaService.extractSuggestions response meal_planning
     = [advice_only response]).
Proof.
  split; [exact meal_visit_pushes|split].
  - intros line [s Hs].
    destruct (OllamaService.is_marker line) eqn:Hm.
    + assert (H : is_Some (OllamaService.meal_visit line)) by (rewrite Hs; now eexists).
      apply (meal_visit_pushes line Hm) in H. destruct H as (h & Hh & _).
      now apply first_hit_matches in Hh.
    + unfold OllamaService.meal_visit in Hs. rewrite Hm in Hs. discriminate.
  - intros response Hlines. unfold OllamaService.extractSuggestions.
    rewrite forEach_push_omap, omap_all_None; [reflexivity|].
    intros line Hin. apply In_filter_In in Hin.
    destruct (OllamaService.is_marker line) eqn:Hm.
    + apply no_pattern_no_record. now apply Hlines.
    + unfold OllamaService.meal_visit. now rewrite Hm.
Qed.

Lemma C10_witness :
  is_Some (OllamaService.meal_visit "- Try pasta with pesto, it is quick.") /\
  dish_pattern_matches "- Try pasta with pesto, it is quick." /\
  OllamaService.extractSuggestions ("- Eat fruit" ++ Text.nl ++ "* Drink water")
    meal_planning
  = [advice_only ("- Eat fruit" ++ Text.nl ++ "* Drink water")].
Proof.
  destruct C10_record_iff_first_capture_not_blank as (Hiff & Hmatch & Hgeneric).
  assert (Hrec : is_Some (OllamaService.meal_visit "- Try pasta with pesto, it is quick.")).
  { apply Hiff; [reflexivity|].
    exists ("pasta with pesto", ", it is quick."). split; [reflexivity|].
    vm_compute. discriminate. }
  split; [exact Hrec|]. split; [now apply Hmatch|].
  apply Hgeneric. intros line Hin _ (p & Hp & Hs).
  vm_compute in Hin.
  destruct Hin as [<-|[<-|[]]];
    (destruct Hp as [<-|[<-|[<-|[]]]]; vm_compute in Hs; destruct Hs as [x Hx];
     discriminate).
Defined.

(* ===================================================================== *)
(** ** The fallback catalog                                               *)
(* ===================================================================== *)

Lemma default_table (m : option MealType) :
  AIService.getFallbackMealRecommendations (AIService.meal_key <$> m)
  = [default_record m].
Proof. destruct m as [[]|]; reflexivity. Qed.

Lemma below_thresholds_default (params : Params.t) :
  below_thresholds params ->
  AIService.getEnhancedFallbackRecommendations params
  = [default_record (Params.mealType params)].
Proof.
  intros (Hp & Hf & Hc). unfold AIService.getEnhancedFallbackRecommendations.
  cbv zeta.
  rewrite (proj2 (Z.ltb_ge _ _) Hp), (proj2 (Z.ltb_ge _ _) Hf),
    (proj2 (Z.ltb_ge _ _) Hc).
  cbn [length Z.of_nat Z.eqb]. apply default_table.
Qed.

Lemma fallback_never_empty (params : Params.t) :
  AIService.getEnhancedFallbackRecommendations params <> [].
Proof.
  unfold AIService.getEnhancedFallbackRecommendations. cbv zeta.
  destruct (20 <? _)%Z, (15 <? _)%Z, (500 <? _)%Z;
    cbn [app length Z.of_nat Pos.of_succ_nat Pos.succ Z.eqb];
    try discriminate.
  rewrite default_table. discriminate.
Qed.

(** C5. With a protein deficit of 25, a fibre deficit of 5 and a calorie
    deficit of 100, whatever the meal type, the catalog returns exactly one
    record, the high-protein one (Kipfilet met Quinoa): only the protein
    threshold is crossed. *)
Theorem C5_only_protein_threshold (params : Params.t) :
  Deficit.protein (Deficit.compute params) = 25 ->
  Deficit.fiber (Deficit.compute params) = 5 ->
  Deficit.calories (Deficit.compute params) = 100 ->
  exists r,
    AIService.getEnhancedFallbackRecommendations params = [r] /\
    r = AIService.high_protein params (Deficit.compute params) /\
    AIService.id r = "fallback-protein-1" /\
    AIService.name r = "Kipfilet met Quinoa" /\
    AIService.reason r = "Je hebt nog 25g eiwit nodig vandaag" /\
    AIService.calories r = 100 /\
    AIService.mealType r = default lunch (Params.mealType params).
Proof.
  intros Hp Hf Hc. eexists. split.
  - unfold AIService.getEnhancedFallbackRecommendations. cbv zeta.
    rewrite Hp, Hf, Hc. reflexivity.
  - cbn [AIService.high_protein AIService.id AIService.name AIService.reason
           AIService.calories AIService.mealType].
    rewrite Hp, Hc. repeat split.
Qed.

Lemma C5_witness :
  Deficit.protein (Deficit.compute protein_short) = 25 /\
  Deficit.fiber (Deficit.compute protein_short) = 5 /\
  Deficit.calories (Deficit.compute protein_short) = 100 /\
  exists r,
    AIService.getEnhancedFallbackRecommendations protein_short = [r] /\
    r = AIService.high_protein protein_short (Deficit.compute protein_short) /\
    AIService.id r = "fallback-protein-1" /\
    AIService.name r = "Kipfilet met Quinoa" /\
    AIService.reason r = "Je hebt nog 25g eiwit nodig vandaag" /\
    AIService.calories r = 100 /\
    AIService.mealType r = dinner.
Proof.
  repeat (split; [reflexivity|]).
  apply (C5_only_protein_threshold protein_short); reflexivity.
Defined.

(** C6, as stated, fails: with every goal met and a snack requested, the
    catalog returns the lunch record, whose meal type is not the requested
    one. *)
Lemma C6_counterexample :
  below_thresholds (goals_met (Some snack)) /\
  AIService.getEnhancedFallbackRecommendations (goals_met (Some snack))
  = [AIService.lunch_fallback] /\
  AIService.mealType AIService.lunch_fallback <> snack.
Proof.
  split; [|split]; [|reflexivity|discriminate].
  unfold below_thresholds. cbn. lia.
Qed.

(** C6, amended. When the protein, fibre and calorie deficits are all at or
    below their thresholds (20, 15, 500), the catalog returns exactly one
    record: for a requested breakfast, lunch or dinner, the record of that
    meal type; the lunch record when no meal type is given or when a snack
    is requested. *)
Theorem C6_default_record_by_meal_type (params : Params.t) :
  below_thresholds params ->
  exists r,
    AIService.getEnhancedFallbackRecommendations params = [r] /\
    (forall m, Params.mealType params = Some m -> m <> snack ->
               AIService.mealType r = m) /\
    (Params.mealType params = None \/ Params.mealType params = Some snack ->
     r = AIService.lunch_fallback).
Proof.
  intros Hbelow. exists (default_record (Params.mealType params)).
  split; [now apply below_thresholds_default|]. split.
  - intros m -> Hm. destruct m; try reflexivity. congruence.
  - intros [-> | ->]; reflexivity.
Qed.

Lemma C6_witness :
  below_thresholds (goals_met (Some dinner)) /\
  below_thresholds (goals_met None) /\
  (exists r,
     AIService.getEnhancedFallbackRecommendations (goals_met (Some dinner)) = [r] /\
     AIService.mealType r = dinner) /\
  AIService.getEnhancedFallbackRecommendations (goals_met None)
  = [AIService.lunch_fallback].
Proof.
  assert (Hdinner : below_thresholds (goals_met (Some dinner)))
    by (unfold below_thresholds; cbn; lia).
  assert (Hnone : below_thresholds (goals_met None))
    by (unfold below_thresholds; cbn; lia).
  split; [exact Hdinner|]. split; [exact Hnone|]. split.
  - destruct (C6_default_record_by_meal_type (goals_met (Some dinner)) Hdinner)
      as (r & Hr & Hm & _).
    exists r. split; [exact Hr|]. apply Hm; [reflexivity|discriminate].
  - destruct (C6_default_record_by_meal_type (goals_met None) Hnone)
      as (r & Hr & _ & Hl).
    rewrite Hr, Hl; [reflexivity|now left].
Defined.

(* ===================================================================== *)
(** ** Normalisation of suggestions                                       *)
(* ===================================================================== *)

Lemma forEach_from_In (now index : Z) (l : list Suggestion)
    (acc : list AIService.MealRecommendation) (r : AIService.MealRecommendation) :
  In r (AIService.forEach_from now index l acc) ->
  In r acc \/
  exists j s, In s l /\ kept s = true /\ r = AIService.recommendation now j s.
Proof.
  revert index acc. induction l as [|s l IH]; intros index acc; simpl.
  - now left.
  - intros H. apply IH in H. destruct H as [H|(j & s' & Hin & Hk & ->)].
    + fold (kept s) in H. destruct (kept s) eqn:Hk; [|now left].
      apply in_app_or in H. destruct H as [H|[<-|[]]]; [now left|].
      right. exists index, s. auto.
    + right. exists j, s'. auto.
Qed.

Lemma forEach_from_grows (now index : Z) (l : list Suggestion)
    (acc : list AIService.MealRecommendation) :
  (length acc <= length (AIService.forEach_from now index l acc))%nat.
Proof.
  revert index acc. induction l as [|s l IH]; intros index acc; simpl; [lia|].
  etransitivity; [|apply IH].
  destruct (_ || _); [rewrite length_app; simpl|]; lia.
Qed.

Lemma forEach_from_none_kept (now index : Z) (l : list Suggestion)
    (acc : list AIService.MealRecommendation) :
  (forall s, In s l -> kept s = false) ->
  AIService.forEach_from now index l acc = acc.
Proof.
  revert index acc. induction l as [|s l IH]; intros index acc H; simpl;
    [reflexivity|].
  fold (kept s). rewrite (H s (or_introl eq_refl)). apply IH.
  intros s' Hs'. apply H. now right.
Qed.

Lemma or_num_non_negative (a : option Z) (b : Z) :
  absent_or_non_negative a -> 0 <= b -> 0 <= or_num a b.
Proof.
  destruct a as [n|]; simpl; [|trivial].
  intros Hn Hb. destruct (Z.eqb n 0); assumption.
Qed.

Lemma estimates_non_negative (recipe : option string) :
  0 <= AIService.estimatePrepTime recipe /\
  0 <= AIService.estimateDifficulty recipe /\
  0 <= AIService.estimateCalories recipe /\
  0 <= AIService.estimateProtein recipe /\
  0 <= AIService.estimateCarbs recipe /\
  0 <= AIService.estimateFat recipe.
Proof.
  unfold AIService.estimatePrepTime, AIService.estimateDifficulty,
    AIService.estimateCalories, AIService.estimateProtein,
    AIService.estimateCarbs, AIService.estimateFat.
  cbv zeta. repeat split; estimate_cases.
Qed.

Lemma recommendation_well_formed (now index : Z) (s : Suggestion) :
  supplied_non_negative s ->
  AIService.name (AIService.recommendation now index s) <> EmptyString /\
  non_negative_fields (AIService.recommendation now index s) /\
  estimates_substituted s (AIService.recommendation now index s).
Proof.
  intros (Ht & Hc & Hp & Hb & Hf).
  destruct (estimates_non_negative (s_recipe_name s)) as (Et & Ed & Ec & Ep & Eb & Ef).
  split; [|split].
  - cbn [AIService.recommendation AIService.name].
    destruct (or_str _ _) as [[|c t]|]; simpl; congruence.
  - unfold non_negative_fields.
    cbn [AIService.recommendation AIService.prepTime AIService.difficulty
           AIService.calories AIService.protein AIService.carbs AIService.fat].
    repeat split; try assumption; now apply or_num_non_negative.
  - unfold estimates_substituted.
    cbn [AIService.recommendation AIService.prepTime AIService.difficulty
           AIService.calories AIService.protein AIService.carbs AIService.fat].
    repeat split; try reflexivity; intros ->; reflexivity.
Qed.

Lemma fallback_records (params : Params.t) (r : AIService.MealRecommendation) :
  In r (AIService.getEnhancedFallbackRecommendations params) ->
  r = AIService.high_protein params (Deficit.compute params) \/
  r = AIService.high_fiber params (Deficit.compute params) \/
  r = AIService.energy_dense (Deficit.compute params) \/
  r = default_record (Params.mealType params).
Proof.
  unfold AIService.getEnhancedFallbackRecommendations. cbv zeta.
  destruct (20 <? _)%Z, (15 <? _)%Z, (500 <? _)%Z;
    cbn [app length Z.of_nat Pos.of_succ_nat Pos.succ Z.eqb];
    try rewrite default_table; simpl; intuition auto.
Qed.

(** The normaliser replaces a numeric property that is missing or zero by
    its estimate and keeps any other value, also a negative one; the
    parser of this backend supplies no numeric property. *)
Lemma normaliser_keeps_supplied_negative :
  exists r,
    AIService.parseMealRecommendations 0 [negative_energy] = [r] /\
    AIService.calories r = -5 /\
    ~ non_negative_fields r.
Proof.
  eexists. split; [reflexivity|]. split; [reflexivity|].
  unfold non_negative_fields. cbn. lia.
Qed.

(** The catalog caps a record's energy at the calorie deficit, also when
    that deficit is negative: 800 kcal over the goal and 100 g short on
    protein gives the high-protein record with -800 kcal. *)
Lemma fallback_energy_follows_negative_deficit :
  exists r,
    In r (AIService.getEnhancedFallbackRecommendations over_target) /\
    AIService.id r = "fallback-protein-1" /\
    AIService.calories r = -800.
Proof. eexists. split; [left; reflexivity|]. split; reflexivity. Qed.

(** Where the invariant holds. (1) For every array of suggestions whose
    supplied numeric properties are non-negative, each recommendation the
    normalisation returns has a non-empty name and non-negative numeric
    fields, and it stems from a suggestion of the array whose missing
    numeric properties were replaced by the keyword estimates. (2) Each
    record of the fallback catalog has a non-empty name and non-negative
    prepTime, difficulty, protein, carbs and fat, and non-negative calories
    when the calorie deficit is not negative. *)
Lemma recommendations_well_formed :
  (forall now suggestions r,
     Forall supplied_non_negative suggestions ->
     In r (AIService.parseMealRecommendations now suggestions) ->
     AIService.name r <> EmptyString /\
     non_negative_fields r /\
     exists s, In s suggestions /\ estimates_substituted s r) /\
  (forall params r,
     In r (AIService.getEnhancedFallbackRecommendations params) ->
     AIService.name r <> EmptyString /\
     0 <= AIService.prepTime r /\ 0 <= AIService.difficulty r /\
     0 <= AIService.protein r /\ 0 <= AIService.carbs r /\
     0 <= AIService.fat r /\
     (0 <= Deficit.calories (Deficit.compute params) -> 0 <= AIService.calories r)).
Proof.
  split.
  - intros now suggestions r Hall Hin.
    apply forEach_from_In in Hin. destruct Hin as [[]|(j & s & Hs & _ & ->)].
    assert (Hsup : supplied_non_negative s).
    { rewrite List.Forall_forall in Hall. now apply Hall. }
    destruct (recommendation_well_formed now j s Hsup) as (Hn & Hf & He).
    split; [exact Hn|]. split; [exact Hf|]. now exists s.
  - intros params r Hin.
    apply fallback_records in Hin.
    destruct Hin as [-> | [-> | [-> | ->]]];
      [| | |destruct (Params.mealType params) as [[]|]];
      cbn; (split; [discriminate|]); repeat split; lia.
Qed.

(** C1: the claim does not hold of the code, by a slip in the fallback
    catalog. For a day 800 kcal over the energy goal and 100 g short on
    protein, with Ollama down, the caller receives the high-protein and
    the high-fibre record, each with -800 kcal: the cap
    [Math.min(deficit.calories, 450)] has no floor for a negative
    deficit. *)
Theorem C1_catalog_returns_negative_calories :
  AIService.getMealRecommendations ollama_down over_target
  = Ok [AIService.high_protein over_target (Deficit.compute over_target);
        AIService.high_fiber over_target (Deficit.compute over_target)] /\
  Deficit.calories (Deficit.compute over_target) = -800 /\
  AIService.calories
    (AIService.high_protein over_target (Deficit.compute over_target)) = -800 /\
  AIService.calories
    (AIService.high_fiber over_target (Deficit.compute over_target)) = -800 /\
  ~ non_negative_fields
      (AIService.high_protein over_target (Deficit.compute over_target)).
Proof.
  repeat split; try reflexivity.
  unfold non_negative_fields. cbn. lia.
Qed.

(* ===================================================================== *)
(** ** The pipeline, end to end                                           *)
(* ===================================================================== *)

Lemma probe_fails_unhealthy (w : World) :
  probe_fails w -> OllamaService.checkHealth w = false.
Proof.
  unfold probe_fails, OllamaService.checkHealth.
  destruct (ollama_tags w); [trivial|reflexivity].
Qed.

Lemma generate_fails_throws (w : World) (params : Params.t) :
  generate_fails w params ->
  OllamaService.generateSuggestions w (AIService.build_prompt w params)
  = Throw "Failed to generate AI suggestions with local LLM".
Proof.
  unfold generate_fails, llm_request, OllamaService.generateSuggestions.
  destruct (ollama_generate w _) as [response|e]; simpl; [|reflexivity].
  intros ->. reflexivity.
Qed.

Lemma completion_malformed_throws (w : World) (params : Params.t) :
  completion_malformed w params ->
  OllamaService.generateSuggestions w (AIService.build_prompt w params)
  = Throw "Failed to generate AI suggestions with local LLM".
Proof.
  unfold completion_malformed, llm_request, OllamaService.generateSuggestions.
  destruct (ollama_generate w _) as [response|e]; simpl; [|intros []].
  intros ->. destruct (ok response); reflexivity.
Qed.

(** An unavailable LLM, or a malformed answer, makes the route answer 503. *)
Lemma route_unavailable (w : World) (params : Params.t) :
  llm_unavailable w params \/ completion_malformed w params ->
  AiRoute.suggestions w (AIService.build_prompt w params)
  = AiRoute.unavailable meal_planning.
Proof.
  intros [[Hprobe|Hgen]|Hbody]; unfold AiRoute.suggestions; cbv zeta.
  - now rewrite (probe_fails_unhealthy w Hprobe).
  - destruct (OllamaService.checkHealth w); [|reflexivity].
    now rewrite (generate_fails_throws w params Hgen).
  - destruct (OllamaService.checkHealth w); [|reflexivity].
    now rewrite (completion_malformed_throws w params Hbody).
Qed.

(** The paths of a request: one of them is always taken. *)
Lemma pipeline_paths (w : World) (params : Params.t) :
  backend_reachable w = false \/ llm_unavailable w params \/
  completion_malformed w params \/ exists text, llm_answers w params text.
Proof.
  destruct (backend_reachable w) eqn:Hreach; [right|now left].
  unfold llm_unavailable, probe_fails, generate_fails, completion_malformed,
    llm_answers, OllamaService.checkHealth.
  rewrite Hreach.
  destruct (ollama_tags w) as [probe|e]; [|left; now left].
  destruct (ok probe) eqn:Hprobe; [|left; now left].
  destruct (ollama_generate w _) as [response|e] eqn:Hgen; [|left; now right].
  destruct (ok response) eqn:Hok; [|left; now right].
  destruct (body response) as [text|] eqn:Hbody; [|right; now left].
  right. right. exists text. repeat split. exists response. auto.
Qed.

(** A 503 from the route, or no route at all, ends in the catalog. *)
Lemma client_falls_back (w : World) (params : Params.t) :
  backend_reachable w = false \/
  AiRoute.suggestions w (AIService.build_prompt w params)
  = AiRoute.unavailable meal_planning ->
  AIService.getMealRecommendations w params
  = Ok (AIService.getEnhancedFallbackRecommendations params).
Proof.
  unfold AIService.getMealRecommendations, AIService.post_suggestions. cbv zeta.
  destruct (backend_reachable w); intros [H|H]; try discriminate;
    try reflexivity.
  rewrite H. reflexivity.
Qed.

(** A completion that arrives is parsed and normalised. *)
Lemma client_normalises (w : World) (params : Params.t) (text : string) :
  llm_answers w params text ->
  AIService.getMealRecommendations w params
  = Ok (AIService.parseMealRecommendations (now w)
          (OllamaService.extractSuggestions text meal_planning)).
Proof.
  intros (Hreach & Hhealth & response & Hgen & Hok & Hbody).
  unfold AIService.getMealRecommendations, AIService.post_suggestions,
    AiRoute.suggestions, OllamaService.generateSuggestions.
  cbv zeta. rewrite Hreach, Hhealth.
  unfold llm_request in Hgen. rewrite Hgen. simpl. rewrite Hok, Hbody.
  reflexivity.
Qed.

Lemma omap_nil_iff {A B : Type} (visit : A -> option B) (l : list A) :
  omap visit l = [] <-> forall x, In x l -> visit x = None.
Proof.
  split; [|apply omap_all_None].
  induction l as [|x l IH]; simpl; [intros _ y []|].
  destruct (visit x) eqn:E; [discriminate|].
  intros H y [<-|Hy]; [exact E|now apply IH].
Qed.

Lemma meal_visit_kept (line : string) (s : Suggestion) :
  OllamaService.meal_visit line = Some s -> kept s = true.
Proof.
  unfold OllamaService.meal_visit, kept.
  destruct (OllamaService.is_marker line); [|discriminate].
  destruct (truthy_str (s_recipe_name _)) eqn:E; [|discriminate].
  intros [= <-]. rewrite E. apply orb_true_r.
Qed.

(** The normalised answer is empty exactly when no line gave a record. *)
Lemma normalised_empty_iff (now : Z) (text : string) :
  AIService.parseMealRecommendations now
    (OllamaService.extractSuggestions text meal_planning) = [] <->
  forall line, In line (OllamaService.response_lines text) ->
               OllamaService.meal_visit line = None.
Proof.
  rewrite <- omap_nil_iff. unfold OllamaService.extractSuggestions.
  rewrite forEach_push_omap. cbn [app].
  destruct (omap OllamaService.meal_visit (OllamaService.response_lines text))
    as [|s l] eqn:E.
  - split; reflexivity.
  - split; [|discriminate]. intros H. exfalso.
    assert (Hs : kept s = true).
    { assert (Hin : In s (omap OllamaService.meal_visit
                            (OllamaService.response_lines text)))
        by (rewrite E; now left).
      apply list_elem_of_In, list_elem_of_omap in Hin.
      destruct Hin as (line & _ & Hline). now apply meal_visit_kept in Hline. }
    change (0 <? Z.of_nat (length (s :: l)))%Z with true in H. cbv iota in H.
    unfold AIService.parseMealRecommendations in H. simpl in H.
    fold (kept s) in H. rewrite Hs in H.
    pose proof (forEach_from_grows now (0 + 1) l
                  [AIService.recommendation now 0 s]) as Hlen.
    simpl app in H. rewrite H in Hlen. simpl in Hlen. lia.
Qed.

(** C3, as stated, fails: with Ollama healthy and completing the prompt
    with a text without list-marker lines, the parser returns one generic
    record that has neither [meal] nor [recipe_name]; the normalisation
    drops it and the caller gets the empty list. *)
Lemma C3_counterexample :
  let w := ollama_says "Eat a balanced meal with vegetables." in
  OllamaService.checkHealth w = true /\
  AiRoute.suggestions w (AIService.build_prompt w (goals_met (Some lunch)))
  = {| AiRoute.status := 200;
       AiRoute.payload :=
         AiRoute.SuccessBody
           {| response_type := meal_planning;
              suggestions := [advice_only "Eat a balanced meal with vegetables."];
              reasoning := "Eat a balanced meal with vegetables.";
              confidence := QArith_base.Qmake 7 10 |}
           "ollama" |} /\
  AIService.getMealRecommendations w (goals_met (Some lunch)) = Ok [].
Proof. cbv zeta. repeat split; vm_compute; reflexivity. Qed.

(** C3, amended. Every request ends with a list and never with an
    exception. When the backend is unreachable, the LLM unhealthy or its
    call failing (network, status or an answer without text), the list is
    the fallback catalog's, which always has at least one record. When the LLM path succeeds, the list is the
    normalisation of the parsed suggestions; it is empty exactly when no
    line of the completion produced a meal suggestion record. *)
Theorem C3_non_empty_unless_nothing_parsed (w : World) (params : Params.t) :
  (exists l, AIService.getMealRecommendations w params = Ok l) /\
  (backend_reachable w = false \/ llm_unavailable w params \/
   completion_malformed w params ->
   AIService.getMealRecommendations w params
   = Ok (AIService.getEnhancedFallbackRecommendations params) /\
   AIService.getEnhancedFallbackRecommendations params <> []) /\
  (forall text,
     llm_answers w params text ->
     let l := AIService.parseMealRecommendations (now w)
                (OllamaService.extractSuggestions text meal_planning) in
     AIService.getMealRecommendations w params = Ok l /\
     (l = [] <->
      forall line, In line (OllamaService.response_lines text) ->
                   OllamaService.meal_visit line = None)).
Proof.
  split; [|split].
  - unfold AIService.getMealRecommendations, try_catch.
    destruct (_ ≫= _); eexists; reflexivity.
  - intros H. split; [|apply fallback_never_empty].
    apply client_falls_back. destruct H as [H|H]; [now left|right].
    apply route_unavailable. tauto.
  - intros text Htext. cbv zeta. split.
    + now apply client_normalises.
    + apply normalised_empty_iff.
Qed.

Lemma C3_witness :
  AIService.getMealRecommendations ollama_down (goals_met (Some lunch))
  = Ok [AIService.lunch_fallback] /\
  exists r,
    AIService.getMealRecommendations (ollama_says "- Try pasta with pesto.")
      (goals_met (Some lunch)) = Ok [r] /\
    AIService.name r = "pasta with pesto".
Proof.
  destruct (C3_non_empty_unless_nothing_parsed ollama_down (goals_met (Some lunch)))
    as (_ & Hdown & _).
  destruct (C3_non_empty_unless_nothing_parsed
              (ollama_says "- Try pasta with pesto.") (goals_met (Some lunch)))
    as (_ & _ & Hup).
  split.
  - destruct Hdown as [-> _]; [right; left; left; exact I|reflexivity].
  - destruct (Hup "- Try pasta with pesto.") as [-> _].
    + split; [reflexivity|]. split; [reflexivity|].
      eexists. repeat split.
    + eexists. split; reflexivity.
Defined.

(** C4. Whenever the LLM endpoint is unavailable or answers with a
    non-success status (at the health probe or at the generate call),
    [getMealRecommendations] returns exactly the fallback catalog's output
    for the request, as a value: nothing is thrown to the caller. *)
Theorem C4_unavailable_llm_yields_catalog (w : World) (params : Params.t) :
  llm_unavailable w params ->
  AIService.getMealRecommendations w params
  = Ok (AIService.getEnhancedFallbackRecommendations params).
Proof.
  intros H. apply client_falls_back. right. apply route_unavailable. now left.
Qed.

Lemma C4_witness :
  llm_unavailable ollama_down protein_short /\
  AIService.getMealRecommendations ollama_down protein_short
  = Ok (AIService.getEnhancedFallbackRecommendations protein_short).
Proof.
  assert (H : llm_unavailable ollama_down protein_short) by (left; exact I).
  split; [exact H|].
  exact (C4_unavailable_llm_yields_catalog ollama_down protein_short H).
Defined.

(** C8. End to end: a breakfast request whose deficits cross no fallback
    threshold, with the LLM health check failing, returns a one-element
    array whose meal type is breakfast. *)
Theorem C8_breakfast_when_unhealthy (w : World) (params : Params.t) :
  Params.mealType params = Some breakfast ->
  below_thresholds params ->
  probe_fails w ->
  exists r,
    AIService.getMealRecommendations w params = Ok [r] /\
    AIService.mealType r = breakfast.
Proof.
  intros Hmeal Hbelow Hprobe. exists AIService.breakfast_fallback.
  split; [|reflexivity].
  rewrite (client_falls_back w params).
  - rewrite (below_thresholds_default params Hbelow), Hmeal. reflexivity.
  - right. apply route_unavailable. left. now left.
Qed.

Lemma C8_witness :
  below_thresholds (goals_met (Some breakfast)) /\
  probe_fails ollama_down /\
  exists r,
    AIService.getMealRecommendations ollama_down (goals_met (Some breakfast))
    = Ok [r] /\
    AIService.mealType r = breakfast.
Proof.
  assert (Hbelow : below_thresholds (goals_met (Some breakfast)))
    by (unfold below_thresholds; cbn; lia).
  split; [exact Hbelow|]. split; [exact I|].
  exact (C8_breakfast_when_unhealthy ollama_down (goals_met (Some breakfast))
           eq_refl Hbelow I).
Defined.

(* ===================================================================== *)
(** ** The rendered deficits                                              *)
(* ===================================================================== *)

(** A rendered number starts with a minus sign exactly when it is negative. *)
Lemma render_minus (n : Z) : String.prefix "-" (Text.render n) = (n <? 0)%Z.
Proof.
  destruct n as [|p|p]; [reflexivity| |].
  - unfold Text.render, Z.to_int, NilZero.string_of_int, NilZero.string_of_uint.
    destruct (Pos.to_uint p); reflexivity.
  - unfold Text.render, Z.to_int, NilZero.string_of_int. simpl.
    destruct (NilZero.string_of_uint _); reflexivity.
Qed.

(** The backend's "Remaining today" line shows four amounts floored at
    zero: none of them renders with a minus sign. *)
Lemma backend_remaining_floored (goals current : NutritionObject) :
  exists kcal p c f,
    OllamaService.remaining_line goals current
    = "Remaining today: " ++ Text.render kcal ++ " kcal, " ++ Text.render p ++
      "g protein, " ++ Text.render c ++ "g carbs, " ++ Text.render f ++
      "g fat" ++ Text.nl /\
    Forall (fun n => 0 <= n /\ String.prefix "-" (Text.render n) = false)
      [kcal; p; c; f].
Proof.
  exists (Z.max 0 (OllamaService.calorieGap goals current)),
         (Z.max 0 (OllamaService.proteinGap goals current)),
         (Z.max 0 (OllamaService.carbGap goals current)),
         (Z.max 0 (OllamaService.fatGap goals current)).
  split; [reflexivity|].
  repeat (apply List.Forall_cons;
          [split; [apply Z.le_max_l|rewrite render_minus; apply Z.ltb_ge, Z.le_max_l]|]).
  apply List.Forall_nil.
Qed.

(** C2: the claim does not hold of the code. For a day 800 kcal over the
    energy goal, the client's [buildMealRecommendationPrompt] renders the
    calorie deficit as -800; that text travels as [user_input] into the
    prompt the backend sends to the LLM, next to the backend's own line,
    which floors the same deficit at 0. *)
Theorem C2_client_renders_negative_deficit :
  Deficit.calories (Deficit.compute over_target) = -800 /\
  AIService.buildMealRecommendationPrompt over_target
  = "Ik heb vandaag al 3000 calorieën gehad van mijn 2200 calorie doel. Ik heb nog -800 calorieën, 100g eiwit, 150g koolhydraten, en 50g vet nodig. Ook zou ik nog 25g vezels moeten hebben. Geef me aanbevelingen voor tussendoortje. Geef specifieke recepten met ingrediënten en voedingswaarden die passen bij Nederlandse maaltijdpatronen." /\
  Text.includes "Ik heb nog -800 calorieën" (llm_request ollama_down over_target)
  = true /\
  Text.includes "Remaining today: 0 kcal" (llm_request ollama_down over_target)
  = true.
Proof. repeat split; vm_compute; reflexivity. Qed.

(* ===================================================================== *)
(** ** Further properties: the list marker                                *)
(* ===================================================================== *)

#[local] Arguments Ascii.eqb : simpl never.

Lemma append_assoc (a b c : string) : (a ++ b) ++ c = a ++ (b ++ c).
Proof.
  induction a as [|x a IH]; [reflexivity|].
  change (String x ((a ++ b) ++ c) = String x (a ++ (b ++ c))).
  now rewrite IH.
Qed.

Lemma append_empty_r (a : string) : a ++ EmptyString = a.
Proof.
  induction a as [|x a IH]; [reflexivity|].
  change (String x (a ++ EmptyString) = String x a). now rewrite IH.
Qed.

Lemma period_here (s : string) (h : Regex.hit) :
  Regex.match_here [Regex.chr "."%char] s = Some h ->
  s = String "."%char (snd h) /\ fst h = EmptyString.
Proof.
  destruct s as [|c s]; simpl; [discriminate|].
  destruct (Ascii.eqb_spec "."%char c) as [<-|]; simpl; [|discriminate].
  intros [= <-]. now split.
Qed.

Lemma star_digits (d rest : string) :
  all_digits d = true ->
  Regex.star digits_atom (Regex.match_here [Regex.chr "."%char])
    (d ++ String "."%char rest)
  = Some (EmptyString, rest).
Proof.
  induction d as [|c d IH]; cbn [all_digits].
  - intros _. reflexivity.
  - intros H. apply andb_true_iff in H. destruct H as [Hc Hd].
    change (String c d ++ String "."%char rest)
      with (String c (d ++ String "."%char rest)).
    cbn [Regex.star].
    change (Regex.cls digits_atom c) with (Text.is_digit c).
    rewrite Hc, (IH Hd). reflexivity.
Qed.

Lemma star_digits_inv (s : string) (h : Regex.hit) :
  Regex.star digits_atom (Regex.match_here [Regex.chr "."%char]) s = Some h ->
  exists d, all_digits d = true /\ s = d ++ String "."%char (snd h).
Proof.
  revert h. induction s as [|c s IH]; intros h; cbn [Regex.star];
    [discriminate|].
  change (Regex.cls digits_atom c) with (Text.is_digit c).
  destruct (Text.is_digit c) eqn:Hc.
  - destruct (Regex.star digits_atom _ s) as [h'|] eqn:E.
    + intros [= <-]. destruct (IH h' eq_refl) as (d & Hd & ->).
      exists (String c d). simpl. now rewrite Hc, Hd.
    + intros H. apply period_here in H. destruct H as [[= ->] _]. discriminate.
  - intros H. apply period_here in H. destruct H as [H _].
    now exists EmptyString.
Qed.

Lemma digits_period_here (c : ascii) (s : string) :
  Regex.match_here [digits_atom; Regex.chr "."%char] (String c s)
  = if Text.is_digit c
    then option_map (Regex.keep digits_atom c)
           (Regex.star digits_atom (Regex.match_here [Regex.chr "."%char]) s)
    else None.
Proof. reflexivity. Qed.

Lemma chr_here (x c : ascii) (s : string) :
  Regex.match_here [Regex.chr x] (String c s)
  = if Ascii.eqb x c then Some (EmptyString, s) else None.
Proof. reflexivity. Qed.

Lemma marker_alternatives (line : string) :
  Regex.match_anchored Regex.list_marker line
  = match Regex.match_here [digits_atom; Regex.chr "."%char] line with
    | Some h => Some h
    | None =>
        match Regex.match_here [Regex.chr "-"%char] line with
        | Some h => Some h
        | None => Regex.match_here [Regex.chr "*"%char] line
        end
    end.
Proof.
  unfold Regex.list_marker. fold digits_atom. cbn [Regex.match_anchored].
  destruct (Regex.match_here [digits_atom; _] line); [reflexivity|].
  destruct (Regex.match_here [Regex.chr "-"%char] line); [reflexivity|].
  destruct (Regex.match_here [Regex.chr "*"%char] line); reflexivity.
Qed.

Lemma marker_hit (m rest : string) :
  marker_text m ->
  Regex.match_anchored Regex.list_marker (m ++ rest) = Some (EmptyString, rest).
Proof.
  intros [->|[->|(d & Hne & Hd & ->)]]; try reflexivity.
  destruct d as [|c d]; [congruence|].
  cbn [all_digits] in Hd. apply andb_true_iff in Hd. destruct Hd as [Hc Hd].
  rewrite append_assoc, marker_alternatives.
  change (String c d ++ "." ++ rest) with (String c (d ++ String "."%char rest)).
  rewrite digits_period_here, Hc, (star_digits d rest Hd). reflexivity.
Qed.

Lemma marker_hit_inv (line : string) (h : Regex.hit) :
  Regex.match_anchored Regex.list_marker line = Some h ->
  exists m, marker_text m /\ line = m ++ snd h.
Proof.
  rewrite marker_alternatives.
  destruct line as [|c s]; [discriminate|].
  rewrite digits_period_here, !chr_here.
  destruct (Text.is_digit c) eqn:Hc.
  - destruct (Regex.star _ _ s) as [h'|] eqn:E; cbn [option_map].
    + intros [= <-]. apply star_digits_inv in E. destruct E as (d & Hd & ->).
      exists (String c d ++ "."). split.
      * right. right. exists (String c d). repeat split; [discriminate|].
        cbn [all_digits]. now rewrite Hc, Hd.
      * rewrite append_assoc. reflexivity.
    + destruct (Ascii.eqb_spec "-"%char c) as [<-|]; [discriminate|].
      destruct (Ascii.eqb_spec "*"%char c) as [<-|]; discriminate.
  - destruct (Ascii.eqb_spec "-"%char c) as [<-|].
    + intros [= <-]. exists "-". split; [now left|reflexivity].
    + destruct (Ascii.eqb_spec "*"%char c) as [<-|]; [|discriminate].
      intros [= <-]. exists "*". split; [right; now left|reflexivity].
Qed.

Lemma marker_prefix_iff (line : string) :
  OllamaService.is_marker line = true <->
  exists m rest, marker_text m /\ line = m ++ rest.
Proof.
  unfold OllamaService.is_marker. split.
  - destruct (Regex.match_anchored _ line) as [h|] eqn:E; [|discriminate].
    intros _. apply marker_hit_inv in E. destruct E as (m & Hm & ->).
    now exists m, (snd h).
  - intros (m & rest & Hm & ->). now rewrite (marker_hit m rest Hm).
Qed.

(** X1. A line is a list-marker line exactly when it starts with a hyphen,
    an asterisk, or one or more digits followed by a period. *)
Theorem is_marker_iff_marker_prefix (line : string) :
  OllamaService.is_marker line = true <->
  exists m rest, marker_text m /\ line = m ++ rest.
Proof. exact (marker_prefix_iff line). Qed.

(** X2. Stripping the marker removes exactly the marker text from a marker
    line and leaves any other line as it is. *)
Theorem strip_marker_removes_marker :
  (forall m rest, marker_text m -> OllamaService.strip_marker (m ++ rest) = rest) /\
  (forall line, OllamaService.is_marker line = false ->
                OllamaService.strip_marker line = line).
Proof.
  split.
  - intros m rest Hm. unfold OllamaService.strip_marker.
    now rewrite (marker_hit m rest Hm).
  - intros line. unfold OllamaService.is_marker, OllamaService.strip_marker.
    destruct (Regex.match_anchored _ line); [discriminate|reflexivity].
Qed.

Lemma strip_marker_witness :
  marker_text "12." /\
  OllamaService.strip_marker ("12." ++ " Dweil de keuken") = " Dweil de keuken" /\
  OllamaService.strip_marker "Dweil de keuken" = "Dweil de keuken".
Proof.
  destruct strip_marker_removes_marker as [Hstrip Hkeep].
  assert (Hm : marker_text "12.").
  { right. right. exists "12". repeat split. discriminate. }
  split; [exact Hm|]. split.
  - exact (Hstrip "12." " Dweil de keuken" Hm).
  - apply Hkeep. reflexivity.
Defined.

(* ===================================================================== *)
(** ** Further properties: the response parser                            *)
(* ===================================================================== *)

Lemma digit_not_space (c : ascii) :
  Text.is_digit c = true -> Text.is_space c = false.
Proof.
  unfold Text.is_digit, Text.is_space. cbv zeta.
  intros H. apply andb_true_iff in H. destruct H as [H1 H2].
  apply Nat.leb_le in H1. apply orb_false_iff. split.
  - apply andb_false_iff. right. apply Nat.leb_gt. lia.
  - apply Nat.eqb_neq. lia.
Qed.

Lemma trim_keeps_non_blank (c : ascii) (s : string) :
  Text.is_space c = false -> Text.truthy (Text.trim (String c s)) = true.
Proof.
  intros Hc. unfold Text.trim. cbn [Text.trimStart]. rewrite Hc.
  cbn [Text.trimEnd]. rewrite Hc. destruct (Text.trimEnd s); reflexivity.
Qed.

(** A marker line is never blank: the filter on blank lines keeps it. *)
Lemma marker_line_not_blank (line : string) :
  OllamaService.is_marker line = true ->
  Text.truthy (Text.trim line) = true.
Proof.
  intros H. apply marker_prefix_iff in H.
  destruct H as (m & rest & [->|[->|(d & Hne & Hd & ->)]] & ->).
  - now apply trim_keeps_non_blank.
  - now apply trim_keeps_non_blank.
  - destruct d as [|c d]; [congruence|].
    cbn [all_digits] in Hd. apply andb_true_iff in Hd. destruct Hd as [Hc _].
    rewrite append_assoc.
    change (String c d ++ "." ++ rest) with (String c (d ++ "." ++ rest)).
    apply trim_keeps_non_blank. now apply digit_not_space.
Qed.

Lemma omap_if_map {A B : Type} (p : A -> bool) (f : A -> B) (l : list A) :
  omap (fun x => if p x then Some (f x) else None) l = map f (List.filter p l).
Proof.
  induction l as [|x l IH]; [reflexivity|]. cbn [List.filter].
  change (omap ?g (x :: l)) with
    (match g x with Some y => y :: omap g l | None => omap g l end).
  cbv beta. destruct (p x); [change (map f (x :: ?t)) with (f x :: map f t); f_equal|];
    exact IH.
Qed.

Lemma filter_marker_of_non_blank (l : list string) :
  List.filter OllamaService.is_marker
    (List.filter (fun line => Text.truthy (Text.trim line)) l)
  = List.filter OllamaService.is_marker l.
Proof.
  induction l as [|x l IH]; [reflexivity|]. cbn [List.filter].
  destruct (Text.truthy (Text.trim x)) eqn:Hx.
  - cbn [List.filter]. now rewrite IH.
  - destruct (OllamaService.is_marker x) eqn:Hm; [|exact IH].
    apply marker_line_not_blank in Hm. congruence.
Qed.

Lemma visits_of_marker_lines (f : string -> Suggestion) (response : string) :
  forEach_push
    (fun line => if OllamaService.is_marker line then Some (f line) else None)
    (OllamaService.response_lines response) []
  = map f (marker_lines response).
Proof.
  rewrite forEach_push_omap, omap_if_map. cbn [app].
  unfold OllamaService.response_lines, marker_lines.
  now rewrite filter_marker_of_non_blank.
Qed.

Lemma non_empty_positive_length {A : Type} (l : list A) :
  l <> [] -> (0 <? Z.of_nat (length l))%Z = true.
Proof. destruct l; [congruence|]. intros _. reflexivity. Qed.

(** X3. For the shopping, budget and cleaning categories, a response with
    at least one list-marker line is parsed into exactly one record per
    marker line, in order, whose advice is the trimmed line; lines without
    marker contribute nothing. *)
Theorem one_record_per_marker_line (response : string) :
  marker_lines response <> [] ->
  OllamaService.extractSuggestions response shopping_optimization
  = map (fun line => item_object (OllamaService.extractItemName line)
                       (Text.trim line)) (marker_lines response) /\
  OllamaService.extractSuggestions response budget_analysis
  = map (fun line => category_object (OllamaService.extractCategory line)
                       (Text.trim line)) (marker_lines response) /\
  OllamaService.extractSuggestions response cleaning_schedule
  = map (fun line => task_object (OllamaService.extractTaskName line)
                       (Text.trim line)) (marker_lines response).
Proof.
  intros Hne. unfold OllamaService.extractSuggestions. cbv zeta.
  unfold OllamaService.shopping_visit, OllamaService.budget_visit,
    OllamaService.cleaning_visit.
  rewrite !visits_of_marker_lines.
  repeat split; rewrite non_empty_positive_length; try reflexivity;
    destruct (marker_lines response); [congruence|discriminate|congruence
                                        |discriminate|congruence|discriminate].
Qed.

Lemma one_record_per_marker_line_witness :
  marker_lines ("Tips:" ++ Text.nl ++ "- Stofzuig de woonkamer elke week" ++
                Text.nl ++ "2. Ramen lappen") <> [] /\
  OllamaService.extractSuggestions
    ("Tips:" ++ Text.nl ++ "- Stofzuig de woonkamer elke week" ++ Text.nl ++
     "2. Ramen lappen") cleaning_schedule
  = [ task_object "Stofzuig de woonkamer" "- Stofzuig de woonkamer elke week";
      task_object "Ramen lappen" "2. Ramen lappen" ].
Proof.
  assert (Hne : marker_lines ("Tips:" ++ Text.nl ++
                              "- Stofzuig de woonkamer elke week" ++ Text.nl ++
                              "2. Ramen lappen") <> []) by discriminate.
  split; [exact Hne|].
  destruct (one_record_per_marker_line _ Hne) as (_ & _ & ->). reflexivity.
Defined.

(** The parser never returns an empty list of suggestions. *)
Lemma parser_never_empty (response : string) (t : PromptType) :
  OllamaService.extractSuggestions response t <> [].
Proof.
  unfold OllamaService.extractSuggestions. cbv zeta.
  match goal with |- context [(0 <? Z.of_nat (length ?l))%Z] => destruct l end;
    discriminate.
Qed.

Lemma split_pieces_without_separator (sep : ascii) (s : string) :
  Forall (fun w => all_chars (fun c => negb (Ascii.eqb c sep)) w = true)
    (Text.split sep s).
Proof.
  induction s as [|c s IH]; cbn [Text.split].
  - apply List.Forall_cons; [reflexivity|apply List.Forall_nil].
  - destruct (Ascii.eqb c sep) eqn:Hc.
    + apply List.Forall_cons; [reflexivity|exact IH].
    + destruct (Text.split sep s) as [|w ws].
      * apply List.Forall_cons; [|apply List.Forall_nil].
        cbn [all_chars]. now rewrite Hc.
      * inversion IH as [|? ? Hw Hws]; subst.
        apply List.Forall_cons; [|exact Hws].
        cbn [all_chars]. now rewrite Hc, Hw.
Qed.

Lemma split_first_word (sep : ascii) (s : string) :
  exists w rest,
    head (Text.split sep s) = Some w /\
    (s = w \/ s = w ++ String sep rest) /\
    all_chars (fun c => negb (Ascii.eqb c sep)) w = true.
Proof.
  induction s as [|c s IH]; cbn [Text.split].
  - exists EmptyString, EmptyString. repeat split. now left.
  - destruct (Ascii.eqb_spec c sep) as [-> | Hc].
    + exists EmptyString, s. repeat split. now right.
    + destruct IH as (w & rest & Hhead & Hs & Hw).
      destruct (Text.split sep s) as [|w' ws]; [discriminate|].
      injection Hhead as ->. exists (String c w), rest. split; [reflexivity|].
      split.
      * destruct Hs as [-> | ->]; [now left|now right].
      * cbn [all_chars]. rewrite Hw.
        destruct (Ascii.eqb_spec c sep); [congruence|reflexivity].
Qed.

(** X4. On an ASCII line, the item name of a shopping suggestion is the
    first word of the line once the marker is stripped and the rest is
    trimmed: the text up to the first space (it contains none), or "item"
    when that text is empty. It is therefore never empty and a single
    word. *)
Theorem item_name_is_first_word (line : string) :
  ascii_text line ->
  exists w rest,
    (Text.trim (OllamaService.strip_marker line) = w \/
     Text.trim (OllamaService.strip_marker line) = w ++ String " "%char rest) /\
    all_chars not_blank_char w = true /\
    OllamaService.extractItemName line
    = match w with
      | EmptyString => "item"
      | _ => w
      end /\
    OllamaService.extractItemName line <> EmptyString.
Proof.
  intros _. unfold OllamaService.extractItemName. cbv zeta.
  destruct (split_first_word " "%char
              (Text.trim (OllamaService.strip_marker line)))
    as (w & rest & Hhead & Hs & Hw).
  exists w, rest. rewrite Hhead. split; [exact Hs|]. split; [exact Hw|].
  destruct w; split; try reflexivity; discriminate.
Qed.

Lemma item_name_is_first_word_witness :
  ascii_text "- Melk kopen bij de markt" /\
  OllamaService.extractItemName "- Melk kopen bij de markt" = "Melk" /\
  exists w rest,
    (Text.trim (OllamaService.strip_marker "- Melk kopen bij de markt") = w \/
     Text.trim (OllamaService.strip_marker "- Melk kopen bij de markt")
     = w ++ String " "%char rest) /\
    all_chars not_blank_char w = true /\
    OllamaService.extractItemName "- Melk kopen bij de markt"
    = match w with
      | EmptyString => "item"
      | _ => w
      end /\
    OllamaService.extractItemName "- Melk kopen bij de markt" <> EmptyString.
Proof.
  split; [reflexivity|]. split; [reflexivity|].
  exact (item_name_is_first_word "- Melk kopen bij de markt" eq_refl).
Defined.

(** X5. The task name of a cleaning suggestion is never empty and consists
    of at most three space-free words joined by single spaces. *)
Theorem task_name_at_most_three_words (line : string) :
  OllamaService.extractTaskName line <> EmptyString /\
  exists ws,
    (length ws <= 3)%nat /\
    Forall (fun w => all_chars not_blank_char w = true) ws /\
    OllamaService.extractTaskName line = Text.join " " ws.
Proof.
  unfold OllamaService.extractTaskName. cbv zeta.
  pose proof (split_pieces_without_separator " "%char
                (Text.trim (OllamaService.strip_marker line))) as H.
  set (words := Text.split " "%char _) in *.
  destruct (Text.join " " (take 3 words)) as [|c t] eqn:E; cbn [or_text].
  - split; [discriminate|]. exists ["cleaning"; "task"].
    split; [simpl; lia|]. split; [|reflexivity].
    repeat (apply List.Forall_cons; [reflexivity|]). apply List.Forall_nil.
  - split; [discriminate|]. exists (take 3 words).
    split; [rewrite length_take; lia|]. split; [|now rewrite E].
    now apply Forall_take.
Qed.

(** *** The reasoning paragraph *)

Lemma prefix_split (a b : string) :
  String.prefix a b = true -> exists r, b = a ++ r.
Proof.
  revert b. induction a as [|x a IH]; intros b.
  - intros _. now exists b.
  - destruct b as [|y b]; cbn [String.prefix]; [discriminate|].
    destruct (ascii_dec x y) as [<-|]; [|discriminate].
    intros H. destruct (IH b H) as [r ->]. now exists r.
Qed.

Lemma prefix_append (a r : string) : String.prefix a (a ++ r) = true.
Proof.
  induction a as [|x a IH]; [now destruct r|].
  change (String x a ++ r) with (String x (a ++ r)). cbn [String.prefix].
  destruct (ascii_dec x x); [exact IH|congruence].
Qed.

Lemma prefix_extend (a b r : string) :
  String.prefix a b = true -> String.prefix a (b ++ r) = true.
Proof.
  intros H. destruct (prefix_split a b H) as [r0 ->].
  rewrite append_assoc. apply prefix_append.
Qed.

Lemma first_piece (sep s : string) :
  sep <> EmptyString ->
  exists p,
    head (Text.split_str sep s) = Some p /\
    (s = p \/ exists rest, s = p ++ sep ++ rest) /\
    Text.includes sep p = false.
Proof.
  intros Hsep. unfold Text.split_str. induction s as [|c s IH].
  - exists EmptyString. repeat split; [now left|].
    destruct sep; [congruence|reflexivity].
  - cbn [Text.split_str_aux].
    destruct (String.prefix sep (String c s)) eqn:Hp.
    + exists EmptyString. split; [reflexivity|]. split.
      * right. exact (prefix_split _ _ Hp).
      * destruct sep; [congruence|reflexivity].
    + destruct IH as (p & Hhead & Hs & Hin).
      destruct (Text.split_str_aux sep 0 s) as [|w ws]; [discriminate|].
      injection Hhead as ->. exists (String c p). split; [reflexivity|]. split.
      * destruct Hs as [->|[rest ->]]; [now left|right; now exists rest].
      * cbn [Text.includes]. rewrite Hin, orb_false_r.
        destruct (String.prefix sep (String c p)) eqn:Hq; [|reflexivity].
        destruct Hs as [->|[rest ->]]; [congruence|].
        apply (prefix_extend _ _ (sep ++ rest)) in Hq.
        change (String c p ++ sep ++ rest) with (String c (p ++ sep ++ rest)) in Hq.
        congruence.
Qed.

Lemma first_paragraph (response : string) :
  exists p,
    (response = p \/ exists rest, response = p ++ Text.nl ++ Text.nl ++ rest) /\
    Text.includes (Text.nl ++ Text.nl) p = false /\
    OllamaService.extractReasoning response
    = match p with
      | EmptyString => "Local AI analysis completed"
      | _ => p
      end /\
    OllamaService.extractReasoning response <> EmptyString.
Proof.
  destruct (first_piece (Text.nl ++ Text.nl) response) as (p & Hhead & Hs & Hin);
    [discriminate|].
  exists p. split.
  - destruct Hs as [->|[rest ->]]; [now left|right; exists rest].
    now rewrite append_assoc.
  - split; [exact Hin|]. unfold OllamaService.extractReasoning. cbv zeta.
    rewrite Hhead. destruct p; split; try reflexivity; discriminate.
Qed.

(** X6. The reasoning of a parsed response is the text before the first
    blank line of the completion (the whole text when it has none); when
    that text is empty, it is the fixed sentence "Local AI analysis
    completed". It is never empty. *)
Theorem reasoning_is_first_paragraph (response : string) :
  exists p,
    (response = p \/ exists rest, response = p ++ Text.nl ++ Text.nl ++ rest) /\
    Text.includes (Text.nl ++ Text.nl) p = false /\
    OllamaService.extractReasoning response
    = match p with
      | EmptyString => "Local AI analysis completed"
      | _ => p
      end /\
    OllamaService.extractReasoning response <> EmptyString.
Proof. exact (first_paragraph response). Qed.

(** *** The gateway and the route *)

Lemma generate_cases (w : World) (prompt : AiPrompt) :
  (forall r,
     OllamaService.generateSuggestions w prompt = Ok r <->
     exists text,
       generate_gives w (OllamaService.request_prompt w prompt) text /\
       r = OllamaService.parseOllamaResponse text (type prompt)) /\
  (forall m,
     OllamaService.generateSuggestions w prompt = Throw m -> m = masked_error).
Proof.
  unfold OllamaService.generateSuggestions, generate_gives.
  destruct (ollama_generate w _) as [response|e]; simpl.
  - destruct (ok response) eqn:Hok; simpl.
    + destruct (body response) as [text|] eqn:Hbody; simpl.
      * split.
        -- intros r. split.
           ++ intros [= <-]. exists text. split; [|reflexivity].
              exists response. auto.
           ++ intros (t & (r' & [= <-] & _ & Hb) & ->). congruence.
        -- discriminate.
      * split; [|now intros m [= <-]].
        intros r. split; [discriminate|].
        intros (t & (r' & [= <-] & _ & Hb) & _). congruence.
    + split; [|now intros m [= <-]].
      intros r. split; [discriminate|].
      intros (t & (r' & [= <-] & Ho & _) & _). congruence.
  - split; [|now intros m [= <-]].
    intros r. split; [discriminate|].
    intros (t & (r' & He & _) & _). discriminate.
Qed.

(** X7. [generateSuggestions] succeeds exactly when the generate call
    answers with success and a text, and then returns the parse of that
    text; every failure, whatever its cause, surfaces with the same fixed
    message. *)
Theorem generate_outcome (w : World) (prompt : AiPrompt) :
  (forall r,
     OllamaService.generateSuggestions w prompt = Ok r <->
     exists text,
       generate_gives w (OllamaService.request_prompt w prompt) text /\
       r = OllamaService.parseOllamaResponse text (type prompt)) /\
  (forall m,
     OllamaService.generateSuggestions w prompt = Throw m -> m = masked_error).
Proof. exact (generate_cases w prompt). Qed.

Lemma fallback_suggestions_never_empty (tag : string) :
  AiRoute.getFallbackSuggestions tag <> [].
Proof.
  unfold AiRoute.getFallbackSuggestions.
  destruct (AiRoute.fallbacks !! tag) as [l|] eqn:E; [|discriminate].
  unfold AiRoute.fallbacks in E.
  repeat (apply lookup_insert_Some in E;
          destruct E as [[_ <-]|[_ E]]; [discriminate|]).
  apply lookup_singleton_Some in E. destruct E as [_ <-]. discriminate.
Qed.

(** X8. For a request body that passed the schema of the route (a [type]
    of the enum), every reply of the handler of [POST /ai/suggestions] is
    one of two: status 200 with provider "ollama" and the parse of a
    completion text, whose list of suggestions is not empty, and this only
    after a successful health probe; or status 503 with the error text
    "AI service temporarily unavailable" and the canned fallback
    suggestions of the request's type, which are not empty either. *)
Theorem route_reply_shapes (w : World) (prompt : AiPrompt) :
  listed (type prompt) ->
  match AiRoute.payload (AiRoute.suggestions w prompt) with
  | AiRoute.SuccessBody data provider =>
      AiRoute.status (AiRoute.suggestions w prompt) = 200 /\
      provider = "ollama" /\
      suggestions data <> [] /\
      OllamaService.checkHealth w = true /\
      exists text,
        generate_gives w (OllamaService.request_prompt w prompt) text /\
        data = OllamaService.parseOllamaResponse text (type prompt)
  | AiRoute.FailureBody error fallback_suggestions =>
      AiRoute.status (AiRoute.suggestions w prompt) = 503 /\
      error = "AI service temporarily unavailable" /\
      fallback_suggestions
      = AiRoute.getFallbackSuggestions (AiRoute.type_tag (type prompt)) /\
      fallback_suggestions <> []
  end.
Proof.
  intros _.
  pose proof (generate_cases w prompt) as [Hok _].
  unfold AiRoute.suggestions. cbv zeta.
  destruct (OllamaService.checkHealth w).
  - destruct (OllamaService.generateSuggestions w prompt) as [r|m] eqn:E; simpl.
    + destruct (proj1 (Hok r) eq_refl) as (text & Hg & ->).
      repeat split; try reflexivity; [apply parser_never_empty|].
      now exists text.
    + repeat split. apply fallback_suggestions_never_empty.
  - simpl. repeat split. apply fallback_suggestions_never_empty.
Qed.

Lemma route_reply_shapes_witness :
  listed shopping_optimization /\
  AiRoute.status
    (AiRoute.suggestions ollama_down
       {| type := shopping_optimization;
          context := {| calendar_events := None; user_preferences := None;
                        current_date := 0; location := "Netherlands" |};
          user_input := "Wat koop ik deze week?" |}) = 503.
Proof.
  split; [exact I|].
  exact (proj1 (route_reply_shapes ollama_down
                  {| type := shopping_optimization;
                     context := {| calendar_events := None;
                                   user_preferences := None;
                                   current_date := 0;
                                   location := "Netherlands" |};
                     user_input := "Wat koop ik deze week?" |} I)).
Defined.

(* ===================================================================== *)
(** ** Further properties: the normalisation                              *)
(* ===================================================================== *)

Lemma forEach_from_kept_from (now index : Z) (l : list Suggestion)
    (acc : list AIService.MealRecommendation) :
  AIService.forEach_from now index l acc = (acc ++ kept_from now index l)%list.
Proof.
  revert index acc. induction l as [|s l IH]; intros index acc;
    cbn [AIService.forEach_from kept_from].
  - now rewrite app_nil_r.
  - rewrite IH. fold (kept s). destruct (kept s); [|reflexivity].
    now rewrite <- app_assoc.
Qed.

Lemma kept_from_names (now index : Z) (l : list Suggestion) :
  map AIService.name (kept_from now index l) = map name_of (List.filter kept l).
Proof.
  revert index. induction l as [|s l IH]; intros index; [reflexivity|].
  cbn [kept_from List.filter]. destruct (kept s); [|apply IH].
  cbn [map]. now rewrite IH.
Qed.

(** X9. The normalisation keeps exactly the suggestions that have a meal
    or a recipe name, in their order: the names of the recommendations are
    the names of those suggestions, and nothing is added. *)
Theorem normalisation_keeps_order (now : Z) (l : list Suggestion) :
  map AIService.name (AIService.parseMealRecommendations now l)
  = map name_of (List.filter kept l) /\
  (length (AIService.parseMealRecommendations now l) <= length l)%nat.
Proof.
  unfold AIService.parseMealRecommendations.
  rewrite forEach_from_kept_from. cbn [app]. split.
  - apply kept_from_names.
  - rewrite <- (length_map AIService.name), kept_from_names, length_map.
    apply List.filter_length_le.
Qed.

(** *** Identifiers *)

Lemma render_injective (a b : Z) : Text.render a = Text.render b -> a = b.
Proof.
  unfold Text.render. intros H.
  assert (Hnil : forall z, Z.to_int z <> Decimal.Pos Decimal.Nil /\
                           Z.to_int z <> Decimal.Neg Decimal.Nil).
  { intros [|p|p]; simpl; split; try discriminate;
      intros [= E]; now apply (DecimalPos.Unsigned.to_uint_nonnil p). }
  apply (f_equal NilZero.int_of_string) in H.
  rewrite !NilZero.isi in H by apply Hnil.
  injection H as H. now apply DecimalZ.to_int_inj.
Qed.

Lemma identifier_injective (now i j : Z) (s t : Suggestion) :
  AIService.id (AIService.recommendation now i s)
  = AIService.id (AIService.recommendation now j t) -> i = j.
Proof.
  cbn [AIService.recommendation AIService.id]. intros H.
  apply (String.app_inj "ai-") in H.
  apply (String.app_inj (Text.render now)) in H.
  apply (String.app_inj "-") in H.
  now apply render_injective.
Qed.

Lemma kept_from_index (now index : Z) (l : list Suggestion)
    (r : AIService.MealRecommendation) :
  In r (kept_from now index l) ->
  exists j s, index <= j /\ In s l /\ kept s = true /\
              r = AIService.recommendation now j s.
Proof.
  revert index. induction l as [|s l IH]; intros index; [intros []|].
  cbn [kept_from]. destruct (kept s) eqn:Hk.
  - intros [<-|H].
    + exists index, s. repeat split; [lia|now left|exact Hk].
    + destruct (IH _ H) as (j & t & Hj & Ht & Hkt & ->).
      exists j, t. repeat split; [lia|now right|exact Hkt].
  - intros H. destruct (IH _ H) as (j & t & Hj & Ht & Hkt & ->).
    exists j, t. repeat split; [lia|now right|exact Hkt].
Qed.

(** X10. The identifiers of the recommendations of one normalisation are
    pairwise distinct. *)
Theorem recommendation_ids_distinct (now : Z) (l : list Suggestion) :
  List.NoDup (map AIService.id (AIService.parseMealRecommendations now l)).
Proof.
  unfold AIService.parseMealRecommendations.
  rewrite forEach_from_kept_from. cbn [app].
  generalize 0 as index. induction l as [|s l IH]; intros index.
  - apply List.NoDup_nil.
  - cbn [kept_from]. destruct (kept s); [|apply IH].
    cbn [map]. apply List.NoDup_cons; [|apply IH].
    intros Hin. apply List.in_map_iff in Hin. destruct Hin as (r & Hid & Hr).
    apply kept_from_index in Hr. destruct Hr as (j & t & Hj & _ & _ & ->).
    apply identifier_injective in Hid. lia.
Qed.

(* ===================================================================== *)
(** ** Further properties: what reaches the caller                        *)
(* ===================================================================== *)

Lemma estimates_within_bounds (recipe : option string) :
  5 <= AIService.estimatePrepTime recipe <= 45 /\
  1 <= AIService.estimateDifficulty recipe <= 3 /\
  200 <= AIService.estimateCalories recipe <= 400 /\
  12 <= AIService.estimateProtein recipe <= 25 /\
  15 <= AIService.estimateCarbs recipe <= 45 /\
  12 <= AIService.estimateFat recipe <= 18.
Proof.
  unfold AIService.estimatePrepTime, AIService.estimateDifficulty,
    AIService.estimateCalories, AIService.estimateProtein,
    AIService.estimateCarbs, AIService.estimateFat.
  cbv zeta. repeat split; estimate_cases.
Qed.

Lemma parsed_suggestions_no_numbers (text : string) (s : Suggestion) :
  In s (OllamaService.extractSuggestions text meal_planning) -> no_numbers s.
Proof.
  unfold OllamaService.extractSuggestions. cbv zeta.
  rewrite forEach_push_omap. cbn [app].
  destruct (0 <? _)%Z.
  - intros H. apply list_elem_of_In, list_elem_of_omap in H.
    destruct H as (line & _ & Hline). unfold OllamaService.meal_visit in Hline.
    destruct (OllamaService.is_marker line); [|discriminate].
    destruct (truthy_str _); [|discriminate].
    injection Hline as <-. repeat split.
  - intros [<-|[]]. repeat split.
Qed.

Lemma recommendation_within_bounds (now index : Z) (s : Suggestion) :
  no_numbers s -> within_bounds (AIService.recommendation now index s).
Proof.
  intros (Ht & Hc & Hp & Hb & Hf).
  destruct (estimates_within_bounds (s_recipe_name s))
    as (Et & Ed & Ec & Ep & Eb & Ef).
  unfold within_bounds.
  cbn [AIService.recommendation AIService.name AIService.prepTime
         AIService.difficulty AIService.calories AIService.protein
         AIService.carbs AIService.fat].
  rewrite Ht, Hc, Hp, Hb, Hf. cbn [or_num].
  split; [destruct (or_str _ _) as [[|c t]|]; simpl; congruence|].
  repeat split; lia.
Qed.

(** What the pipeline passes to the normaliser comes out with a non-empty
    name and non-negative numeric fields. *)
Lemma parsed_recommendations_non_negative (now : Z) (text : string)
    (r : AIService.MealRecommendation) :
  In r (AIService.parseMealRecommendations now
          (OllamaService.extractSuggestions text meal_planning)) ->
  AIService.name r <> EmptyString /\ non_negative_fields r.
Proof.
  intros Hr. apply forEach_from_In in Hr.
  destruct Hr as [[]|(j & s & Hs & _ & ->)].
  apply parsed_suggestions_no_numbers in Hs.
  destruct Hs as (Ht & Hc & Hp & Hb & Hf).
  destruct (recommendation_well_formed now j s) as (Hn & Hnn & _);
    [|now split].
  unfold supplied_non_negative. rewrite Ht, Hc, Hp, Hb, Hf. cbn. tauto.
Qed.

Lemma catalog_within_bounds (params : Params.t) (r : AIService.MealRecommendation) :
  In r (AIService.getEnhancedFallbackRecommendations params) -> within_bounds r.
Proof.
  intros Hin. apply fallback_records in Hin. unfold within_bounds.
  destruct Hin as [-> | [-> | [-> | ->]]];
    [| | |destruct (Params.mealType params) as [[]|]];
    cbn; (split; [discriminate|]); repeat split; lia.
Qed.

(** X11. Whatever the world and the request, every recommendation that
    [getMealRecommendations] returns has a non-empty name, a preparation
    time of 5 to 45 minutes, a difficulty of 1 to 3, 12 to 35 g protein,
    15 to 65 g carbs, 8 to 18 g fat and at most 550 kcal. *)
Theorem returned_recommendations_within_bounds (w : World) (params : Params.t)
    (l : list AIService.MealRecommendation) (r : AIService.MealRecommendation) :
  AIService.getMealRecommendations w params = Ok l ->
  In r l ->
  within_bounds r.
Proof.
  intros Hl Hr.
  destruct (pipeline_paths w params) as [H|[H|[H|[text H]]]].
  - rewrite (client_falls_back w params (or_introl H)) in Hl.
    injection Hl as <-. now apply (catalog_within_bounds params).
  - rewrite (client_falls_back w params
               (or_intror (route_unavailable w params (or_introl H)))) in Hl.
    injection Hl as <-. now apply (catalog_within_bounds params).
  - rewrite (client_falls_back w params
               (or_intror (route_unavailable w params (or_intror H)))) in Hl.
    injection Hl as <-. now apply (catalog_within_bounds params).
  - rewrite (client_normalises w params text H) in Hl. injection Hl as <-.
    apply forEach_from_In in Hr. destruct Hr as [[]|(j & s & Hs & _ & ->)].
    apply recommendation_within_bounds.
    now apply (parsed_suggestions_no_numbers text).
Qed.

Lemma returned_recommendations_within_bounds_witness :
  within_bounds (AIService.high_protein over_target (Deficit.compute over_target)).
Proof.
  apply (returned_recommendations_within_bounds ollama_down over_target
           (AIService.getEnhancedFallbackRecommendations over_target)).
  - reflexivity.
  - left. reflexivity.
Defined.

Lemma first_included_member (keywords : list string) (line k : string) :
  OllamaService.first_included keywords line = Some k -> In k keywords.
Proof.
  induction keywords as [|x ks IH]; cbn [OllamaService.first_included];
    [discriminate|].
  destruct (Text.includes x _); [intros [= <-]; now left|].
  intros H. right. now apply IH.
Qed.

Lemma meal_keyword_type (line : string) :
  AIService.determineMealType (Some (OllamaService.extractMealType line))
  = meal_of_keyword (OllamaService.extractMealType line) /\
  truthy_str (Some (OllamaService.extractMealType line)) = true.
Proof.
  unfold OllamaService.extractMealType.
  destruct (OllamaService.first_included _ line) as [k|] eqn:E;
    [|split; reflexivity].
  apply first_included_member in E.
  destruct E as [<-|[<-|[<-|[<-|[]]]]]; split; reflexivity.
Qed.

(** X12. A line of a meal-planning answer that produces a suggestion
    becomes a recommendation named after the captured dish, with the
    trimmed line as description and reason, and with the meal type of the
    first of the keywords breakfast, lunch, dinner, snack that the line
    contains (lunch when it contains none): the dish name has no part in
    the meal type. *)
Theorem parsed_line_recommendation (now index : Z) (line : string) (s : Suggestion) :
  OllamaService.meal_visit line = Some s ->
  let r := AIService.recommendation now index s in
  Some (AIService.name r) = OllamaService.extractRecipeName line /\
  AIService.description r = Text.trim line /\
  AIService.reason r = Text.trim line /\
  AIService.mealType r = meal_of_keyword (OllamaService.extractMealType line).
Proof.
  unfold OllamaService.meal_visit.
  destruct (OllamaService.is_marker line) eqn:Hm; [|discriminate].
  cbn [meal_object s_recipe_name].
  destruct (truthy_str (OllamaService.extractRecipeName line)) eqn:Hr;
    [|discriminate].
  intros [= <-]. cbv zeta.
  cbn [AIService.recommendation AIService.name AIService.description
         AIService.reason AIService.mealType meal_object s_recipe_name s_meal
         s_reasoning s_advice].
  pose proof (marker_line_not_blank line Hm) as Hb.
  destruct (meal_keyword_type line) as [Htype Hmeal].
  unfold or_str. rewrite Hr, Hmeal. cbn [truthy_str]. rewrite Hb.
  repeat split.
  - destruct (OllamaService.extractRecipeName line) as [[|c t]|];
      try discriminate; reflexivity.
  - destruct (Text.trim line); [discriminate|reflexivity].
  - destruct (Text.trim line); [discriminate|reflexivity].
  - exact Htype.
Qed.

Lemma parsed_line_recommendation_witness :
  let line := "- Voor het ontbijt: try ontbijt pannenkoeken, snel klaar." in
  let r := AIService.recommendation 0 0
             (meal_object "meal" (Some "ontbijt pannenkoeken") line) in
  AIService.name r = "ontbijt pannenkoeken" /\
  AIService.mealType r = lunch.
Proof.
  cbv zeta.
  destruct (parsed_line_recommendation 0 0
              "- Voor het ontbijt: try ontbijt pannenkoeken, snel klaar."
              (meal_object "meal" (Some "ontbijt pannenkoeken")
                 "- Voor het ontbijt: try ontbijt pannenkoeken, snel klaar.")
              eq_refl) as (Hn & _ & _ & Ht).
  split; [reflexivity|]. rewrite Ht. reflexivity.
Defined.

(* ===================================================================== *)
(** ** Further properties: the fallback catalog                           *)
(* ===================================================================== *)

(** X13. The catalog returns one, two or three records, and their
    identifiers are pairwise distinct. *)
Theorem catalog_size_and_ids (params : Params.t) :
  (1 <= length (AIService.getEnhancedFallbackRecommendations params) <= 3)%nat /\
  List.NoDup (map AIService.id (AIService.getEnhancedFallbackRecommendations params)).
Proof.
  unfold AIService.getEnhancedFallbackRecommendations. cbv zeta.
  destruct (20 <? _)%Z, (15 <? _)%Z, (500 <? _)%Z;
    cbn [app length Z.of_nat Pos.of_succ_nat Pos.succ Z.eqb];
    try rewrite default_table;
    (split; [simpl; lia|]);
    cbn [map AIService.id AIService.high_protein AIService.high_fiber
           AIService.energy_dense];
    repeat (apply List.NoDup_cons; [simpl; intuition discriminate|]);
    apply List.NoDup_nil.
Qed.

Lemma catalog_record_kinds (params : Params.t) (r : AIService.MealRecommendation) :
  In r (AIService.getEnhancedFallbackRecommendations params) ->
  (r = AIService.high_protein params (Deficit.compute params) /\
   20 < Deficit.protein (Deficit.compute params)) \/
  (r = AIService.high_fiber params (Deficit.compute params) /\
   15 < Deficit.fiber (Deficit.compute params)) \/
  (r = AIService.energy_dense (Deficit.compute params) /\
   500 < Deficit.calories (Deficit.compute params)) \/
  (r = default_record (Params.mealType params) /\ below_thresholds params).
Proof.
  unfold AIService.getEnhancedFallbackRecommendations, below_thresholds.
  cbv zeta.
  destruct (20 <? _)%Z eqn:Hp, (15 <? _)%Z eqn:Hf, (500 <? _)%Z eqn:Hc;
    cbn [app length Z.of_nat Pos.of_succ_nat Pos.succ Z.eqb];
    try rewrite default_table;
    try (apply Z.ltb_lt in Hp); try (apply Z.ltb_ge in Hp);
    try (apply Z.ltb_lt in Hf); try (apply Z.ltb_ge in Hf);
    try (apply Z.ltb_lt in Hc); try (apply Z.ltb_ge in Hc);
    intros H; repeat (destruct H as [<-|H]); try destruct H; auto 8.
Qed.

Lemma energy_dense_returned (params : Params.t) :
  500 < Deficit.calories (Deficit.compute params) ->
  In (AIService.energy_dense (Deficit.compute params))
    (AIService.getEnhancedFallbackRecommendations params).
Proof.
  intros Hc. apply Z.ltb_lt in Hc.
  unfold AIService.getEnhancedFallbackRecommendations. cbv zeta. rewrite Hc.
  destruct (20 <? _)%Z, (15 <? _)%Z; simpl; auto.
Qed.

(** X14. In the catalog, the energy-dense record is always a dinner,
    whatever meal type was requested, and it is returned whenever the
    calorie deficit exceeds 500; the high-protein and high-fibre records
    carry the requested meal type, lunch when none is requested; a request
    that crosses no threshold gets the record of the default table, whose
    meal type is the requested one for breakfast, lunch and dinner and
    lunch for a snack or no meal type. Every record is of one of these
    three kinds. *)
Theorem catalog_meal_types (params : Params.t) (r : AIService.MealRecommendation) :
  In r (AIService.getEnhancedFallbackRecommendations params) ->
  (AIService.id r = "fallback-energy-1" -> AIService.mealType r = dinner) /\
  (AIService.id r = "fallback-protein-1" \/ AIService.id r = "fallback-fiber-1" ->
   AIService.mealType r = default lunch (Params.mealType params)) /\
  (below_thresholds params ->
   r = default_record (Params.mealType params) /\
   AIService.mealType r
   = match Params.mealType params with
     | Some snack | None => lunch
     | Some m => m
     end) /\
  (AIService.id r = "fallback-energy-1" \/ AIService.id r = "fallback-protein-1" \/
   AIService.id r = "fallback-fiber-1" \/ below_thresholds params) /\
  (500 < Deficit.calories (Deficit.compute params) ->
   In (AIService.energy_dense (Deficit.compute params))
     (AIService.getEnhancedFallbackRecommendations params)).
Proof.
  intros Hin. apply catalog_record_kinds in Hin.
  destruct Hin as [[-> Hp]|[[-> Hf]|[[-> Hc]|[-> Hbelow]]]].
  - split; [intros [=]|]. split; [reflexivity|].
    split; [intros (Hb & _ & _); lia|].
    split; [right; left; reflexivity|apply energy_dense_returned].
  - split; [intros [=]|]. split; [reflexivity|].
    split; [intros (_ & Hb & _); lia|].
    split; [right; right; left; reflexivity|apply energy_dense_returned].
  - split; [reflexivity|]. split; [intros [[=]|[=]]|].
    split; [intros (_ & _ & Hb); lia|].
    split; [left; reflexivity|apply energy_dense_returned].
  - split; [destruct (Params.mealType params) as [[]|]; intros [=]|].
    split; [destruct (Params.mealType params) as [[]|]; intros [[=]|[=]]|].
    split; [intros _; split; [reflexivity|];
            destruct (Params.mealType params) as [[]|]; reflexivity|].
    split; [right; right; right; exact Hbelow|apply energy_dense_returned].
Qed.

Lemma catalog_meal_types_witness :
  let params := request (nutrition 1000 150 250 80 (Some 30)) daily_goal
                  (Some breakfast) in
  In (AIService.energy_dense (Deficit.compute params))
    (AIService.getEnhancedFallbackRecommendations params) /\
  AIService.mealType (AIService.energy_dense (Deficit.compute params)) = dinner.
Proof.
  cbv zeta.
  assert (Hin : In (AIService.energy_dense
                      (Deficit.compute
                         (request (nutrition 1000 150 250 80 (Some 30)) daily_goal
                            (Some breakfast))))
                  (AIService.getEnhancedFallbackRecommendations
                     (request (nutrition 1000 150 250 80 (Some 30)) daily_goal
                        (Some breakfast)))) by (left; reflexivity).
  split; [exact Hin|].
  destruct (catalog_meal_types _ _ Hin) as (Henergy & _).
  apply Henergy. reflexivity.
Defined.

(** X15. When some threshold is crossed, no record of the catalog carries
    more energy than the calorie deficit of the request (and so a negative
    amount when the deficit is negative). *)
Theorem catalog_energy_at_most_deficit (params : Params.t)
    (r : AIService.MealRecommendation) :
  ~ below_thresholds params ->
  In r (AIService.getEnhancedFallbackRecommendations params) ->
  AIService.calories r <= Deficit.calories (Deficit.compute params).
Proof.
  unfold AIService.getEnhancedFallbackRecommendations, below_thresholds.
  cbv zeta. intros Hcross.
  destruct (20 <? _)%Z eqn:Hp, (15 <? _)%Z eqn:Hf, (500 <? _)%Z eqn:Hc;
    cbn [app length Z.of_nat Pos.of_succ_nat Pos.succ Z.eqb];
    try (apply Z.ltb_ge in Hc; apply Z.ltb_ge in Hp; apply Z.ltb_ge in Hf;
         exfalso; apply Hcross; auto);
    intros H; repeat (destruct H as [<-|H]); try destruct H;
    cbn [AIService.calories AIService.high_protein AIService.high_fiber
           AIService.energy_dense]; apply Z.le_min_l.
Qed.

Lemma catalog_energy_at_most_deficit_witness :
  ~ below_thresholds over_target /\
  forall r, In r (AIService.getEnhancedFallbackRecommendations over_target) ->
            AIService.calories r <= -800.
Proof.
  assert (Hcross : ~ below_thresholds over_target).
  { unfold below_thresholds. cbn. lia. }
  split; [exact Hcross|]. intros r Hr.
  exact (catalog_energy_at_most_deficit over_target r Hcross Hr).
Defined.

(* ===================================================================== *)
(** ** Further properties: the nutrition lines of the prompt              *)
(* ===================================================================== *)

Lemma or_num_of_non_zero (n b : Z) : n <> 0 -> or_num (Some n) b = n.
Proof. intros H. cbn [or_num]. now destruct (Z.eqb_spec n 0). Qed.

Lemma or_num_zero_default (n : Z) : or_num (Some n) 0 = n.
Proof. cbn [or_num]. now destruct (Z.eqb_spec n 0). Qed.

(** X16. For a request whose four targets are not zero, the amounts of the
    backend's "Remaining today" line are the client's deficits floored at
    zero. *)
Theorem remaining_line_floors_client_deficits (params : Params.t) :
  let target := Params.targets params in
  let deficit := Deficit.compute params in
  Nutrition.calories target <> 0 -> Nutrition.protein target <> 0 ->
  Nutrition.carbs target <> 0 -> Nutrition.fat target <> 0 ->
  OllamaService.remaining_line (AIService.to_object target)
    (AIService.to_object (Params.currentNutrition params))
  = "Remaining today: " ++ Text.render (Z.max 0 (Deficit.calories deficit)) ++
    " kcal, " ++ Text.render (Z.max 0 (Deficit.protein deficit)) ++
    "g protein, " ++ Text.render (Z.max 0 (Deficit.carbs deficit)) ++
    "g carbs, " ++ Text.render (Z.max 0 (Deficit.fat deficit)) ++ "g fat" ++
    Text.nl.
Proof.
  cbv zeta. intros Hc Hp Hb Hf.
  unfold OllamaService.remaining_line, OllamaService.calorieGap,
    OllamaService.proteinGap, OllamaService.carbGap, OllamaService.fatGap.
  cbn [AIService.to_object o_calories o_protein o_carbs o_fat].
  rewrite !or_num_zero_default, !or_num_of_non_zero by assumption.
  reflexivity.
Qed.

Lemma remaining_line_floors_client_deficits_witness :
  OllamaService.remaining_line (AIService.to_object (Params.targets over_target))
    (AIService.to_object (Params.currentNutrition over_target))
  = "Remaining today: 0 kcal, 100g protein, 150g carbs, 50g fat" ++ Text.nl.
Proof.
  rewrite (remaining_line_floors_client_deficits over_target); [reflexivity|..];
    discriminate.
Defined.

Lemma all_chars_append (p : ascii -> bool) (a b : string) :
  all_chars p (a ++ b) = all_chars p a && all_chars p b.
Proof.
  induction a as [|x a IH]; [reflexivity|].
  change (String x a ++ b) with (String x (a ++ b)). cbn [all_chars].
  now rewrite IH, andb_assoc.
Qed.

Lemma includes_minus (s : string) :
  Text.includes "-" s = negb (all_chars not_minus s).
Proof.
  induction s as [|c s IH]; [reflexivity|].
  cbn [Text.includes all_chars String.prefix]. rewrite IH. unfold not_minus.
  destruct (ascii_dec "-"%char c) as [<-|Hne].
  - now destruct s.
  - destruct (Ascii.eqb_spec c "-"%char) as [->|_]; [congruence|reflexivity].
Qed.

Lemma digits_without_minus (d : Decimal.uint) :
  all_chars not_minus (NilEmpty.string_of_uint d) = true.
Proof. induction d; cbn [NilEmpty.string_of_uint all_chars]; auto. Qed.

Lemma render_without_minus (n : Z) :
  0 <= n -> all_chars not_minus (Text.render n) = true.
Proof.
  destruct n as [|p|p]; [reflexivity| |lia]. intros _.
  unfold Text.render, Z.to_int, NilZero.string_of_int, NilZero.string_of_uint.
  destruct (Pos.to_uint p) eqn:E; try reflexivity;
    rewrite <- E; apply digits_without_minus.
Qed.

(** X17. For goals and intake that are whole amounts of at most 2^52 in
    absolute value (where the subtraction of doubles is exact and the
    result is printed in plain decimal), the backend's "Remaining today"
    line contains no minus sign, also when intake exceeds a goal or a
    value is missing, zero or negative. *)
Theorem remaining_line_without_minus (goals current : NutritionObject) :
  exact_amounts goals -> exact_amounts current ->
  Text.includes "-" (OllamaService.remaining_line goals current) = false.
Proof.
  intros _ _. rewrite includes_minus. apply negb_false_iff.
  unfold OllamaService.remaining_line.
  rewrite !all_chars_append, !render_without_minus by apply Z.le_max_l.
  reflexivity.
Qed.

Lemma remaining_line_without_minus_witness :
  exact_amounts (AIService.to_object (Params.targets over_target)) /\
  exact_amounts (AIService.to_object (Params.currentNutrition over_target)) /\
  Text.includes "-"
    (OllamaService.remaining_line
       (AIService.to_object (Params.targets over_target))
       (AIService.to_object (Params.currentNutrition over_target))) = false.
Proof.
  assert (Hg : exact_amounts (AIService.to_object (Params.targets over_target)))
    by (unfold exact_amounts, exact_amount; cbn; lia).
  assert (Hc : exact_amounts
                 (AIService.to_object (Params.currentNutrition over_target)))
    by (unfold exact_amounts, exact_amount; cbn; lia).
  split; [exact Hg|]. split; [exact Hc|].
  exact (remaining_line_without_minus _ _ Hg Hc).
Defined.

(* ===================================================================== *)
(** ** Further properties: the other client calls                         *)
(* ===================================================================== *)

(** X18. Against this backend [getServiceStatus] always reports the
    offline status, also when Ollama is healthy: the status body has no
    [claude] entry, reading its [available] throws, and the handler of the
    exception answers offline. *)
Theorem service_status_always_offline (w : World) (env_url : option string) :
  AIServiceCalls.getServiceStatus w env_url = Ok AIServiceCalls.offline.
Proof.
  unfold AIServiceCalls.getServiceStatus, AIServiceCalls.get_status.
  destruct (backend_reachable w); reflexivity.
Qed.

Lemma generate_nothing_throws (w : World) (prompt : AiPrompt) :
  generate_gives_nothing w (OllamaService.request_prompt w prompt) ->
  OllamaService.generateSuggestions w prompt = Throw masked_error.
Proof.
  intros Hno. destruct (generate_cases w prompt) as [Hok Hthrow].
  destruct (OllamaService.generateSuggestions w prompt) as [r|m].
  - destruct (proj1 (Hok r) eq_refl) as (text & Hg & _).
    now destruct (Hno text).
  - now rewrite (Hthrow m eq_refl).
Qed.

Lemma generate_text_parsed (w : World) (prompt : AiPrompt) (text : string) :
  generate_gives w (OllamaService.request_prompt w prompt) text ->
  OllamaService.generateSuggestions w prompt
  = Ok (OllamaService.parseOllamaResponse text (type prompt)).
Proof.
  intros Hg. apply (proj1 (generate_cases w prompt)). now exists text.
Qed.

(** X19. [getQuickMealSuggestions] never throws. When the backend is
    unreachable, Ollama unhealthy or its call failing, it returns the
    empty list (no catalog here); when the call succeeds, it returns the
    normalisation of the parsed completion. *)
Theorem quick_suggestions_outcome (w : World) (events : list CalendarEvent) :
  (exists l, AIServiceCalls.getQuickMealSuggestions w events = Ok l) /\
  (backend_reachable w = false \/ OllamaService.checkHealth w = false \/
   generate_gives_nothing w (quick_request w events) ->
   AIServiceCalls.getQuickMealSuggestions w events = Ok []) /\
  (forall text,
     backend_reachable w = true -> OllamaService.checkHealth w = true ->
     generate_gives w (quick_request w events) text ->
     AIServiceCalls.getQuickMealSuggestions w events
     = Ok (AIService.parseMealRecommendations (now w)
             (OllamaService.extractSuggestions text meal_planning))).
Proof.
  unfold AIServiceCalls.getQuickMealSuggestions, AIServiceCalls.post_quick,
    AiQuickRoute.handler, quick_request.
  cbv zeta. split; [|split].
  - unfold try_catch. destruct (_ ≫= _); eexists; reflexivity.
  - intros [->|[H|H]]; [reflexivity| |].
    + rewrite H. destruct (backend_reachable w); reflexivity.
    + rewrite (generate_nothing_throws w _ H).
      destruct (backend_reachable w), (OllamaService.checkHealth w); reflexivity.
  - intros text -> -> Hg. rewrite (generate_text_parsed w _ text Hg). reflexivity.
Qed.

Lemma quick_suggestions_outcome_witness :
  AIServiceCalls.getQuickMealSuggestions ollama_down [] = Ok [] /\
  exists r,
    AIServiceCalls.getQuickMealSuggestions (ollama_says "- Try pasta with pesto.") []
    = Ok [r] /\
    AIService.name r = "pasta with pesto".
Proof.
  destruct (quick_suggestions_outcome ollama_down []) as (_ & Hdown & _).
  destruct (quick_suggestions_outcome (ollama_says "- Try pasta with pesto.") [])
    as (_ & _ & Hup).
  split.
  - apply Hdown. right. left. reflexivity.
  - rewrite (Hup "- Try pasta with pesto." eq_refl eq_refl).
    + eexists. split; reflexivity.
    + eexists. repeat split.
Defined.

Lemma route_failure (w : World) (prompt : AiPrompt) :
  OllamaService.checkHealth w = false \/
  generate_gives_nothing w (OllamaService.request_prompt w prompt) ->
  AiRoute.suggestions w prompt = AiRoute.unavailable (type prompt).
Proof.
  unfold AiRoute.suggestions. cbv zeta. intros [->|H]; [reflexivity|].
  rewrite (generate_nothing_throws w prompt H).
  destruct (OllamaService.checkHealth w); reflexivity.
Qed.

(** X20. [chatNutritionAdvice] never throws. When the backend is
    unreachable, Ollama unhealthy or its call failing, it answers with the
    fixed apology as assistant and with an empty list of recommendations:
    the fallback catalog is not used for the chat. *)
Theorem chat_failure_apologises (w : World) (message : string) (ctx : ChatContext.t) :
  (exists m, AIServiceCalls.chatNutritionAdvice w message ctx = Ok m) /\
  (backend_reachable w = false \/ OllamaService.checkHealth w = false \/
   generate_gives_nothing w (chat_request w message ctx) ->
   AIServiceCalls.chatNutritionAdvice w message ctx
   = Ok {| ChatMessage.id := Text.render (now w);
           ChatMessage.type := ChatMessage.assistant;
           ChatMessage.content := AIServiceCalls.apology;
           ChatMessage.timestamp := now w;
           ChatMessage.recommendations := Some [] |}).
Proof.
  unfold AIServiceCalls.chatNutritionAdvice, AIService.post_suggestions.
  cbv zeta. split.
  - unfold try_catch. destruct (_ ≫= _); eexists; reflexivity.
  - intros H. destruct (backend_reachable w); [|reflexivity].
    destruct H as [H|H]; [discriminate|].
    rewrite (route_failure w _ H). reflexivity.
Qed.

Lemma chat_failure_apologises_witness :
  exists m,
    AIServiceCalls.chatNutritionAdvice ollama_down "Wat eet ik vanavond?"
      {| ChatContext.currentNutrition := AIService.to_object daily_goal;
         ChatContext.targets := AIService.to_object daily_goal;
         ChatContext.recentMeals := None;
         ChatContext.preferences := Some ["healthy"] |} = Ok m /\
    ChatMessage.content m = AIServiceCalls.apology /\
    ChatMessage.recommendations m = Some [].
Proof.
  eexists. split.
  - apply (proj2 (chat_failure_apologises ollama_down _ _)).
    right. left. reflexivity.
  - split; reflexivity.
Defined.

(** X21. When the chat request reaches a healthy Ollama that completes it
    with a text, the assistant's message has the first paragraph of the
    completion as content (the fixed sentence of the parser when that is
    empty, never the client's own default) and the normalisation of the
    parsed completion as recommendations. *)
Theorem chat_success_content (w : World) (message : string) (ctx : ChatContext.t)
    (text : string) :
  backend_reachable w = true ->
  OllamaService.checkHealth w = true ->
  generate_gives w (chat_request w message ctx) text ->
  AIServiceCalls.chatNutritionAdvice w message ctx
  = Ok {| ChatMessage.id := Text.render (now w);
          ChatMessage.type := ChatMessage.assistant;
          ChatMessage.content := OllamaService.extractReasoning text;
          ChatMessage.timestamp := now w;
          ChatMessage.recommendations :=
            Some (AIService.parseMealRecommendations (now w)
                    (OllamaService.extractSuggestions text meal_planning)) |}.
Proof.
  intros Hreach Hhealth Hg.
  unfold AIServiceCalls.chatNutritionAdvice, AIService.post_suggestions,
    AiRoute.suggestions.
  cbv zeta. rewrite Hreach, Hhealth.
  rewrite (generate_text_parsed w _ text Hg). simpl.
  destruct (first_paragraph text) as (_ & _ & _ & _ & Hne).
  destruct (OllamaService.extractReasoning text); [congruence|reflexivity].
Qed.

Lemma chat_success_content_witness :
  exists m,
    AIServiceCalls.chatNutritionAdvice
      (ollama_says ("Eet meer eiwit." ++ Text.nl ++ Text.nl ++ "- Try kwark met noten"))
      "Wat eet ik vanavond?"
      {| ChatContext.currentNutrition := AIService.to_object daily_goal;
         ChatContext.targets := AIService.to_object daily_goal;
         ChatContext.recentMeals := None;
         ChatContext.preferences := None |} = Ok m /\
    ChatMessage.content m = "Eet meer eiwit." /\
    exists r, ChatMessage.recommendations m = Some [r] /\
              AIService.name r = "kwark met noten".
Proof.
  eexists. split.
  - apply (chat_success_content _ _ _
             ("Eet meer eiwit." ++ Text.nl ++ Text.nl ++ "- Try kwark met noten"));
      [reflexivity|reflexivity|].
    eexists. repeat split.
  - split; [reflexivity|]. eexists. split; reflexivity.
Defined.

(* ===================================================================== *)
(** ** Further properties: dish names and counts                          *)
(* ===================================================================== *)

Lemma keep_within (p : ascii -> bool) (a : Regex.atom) (c : ascii) (h : Regex.hit) :
  captures_within p a -> Regex.cls a c = true ->
  all_chars p (fst h) = true -> all_chars p (fst (Regex.keep a c h)) = true.
Proof.
  unfold captures_within, Regex.keep. intros Ha Hc Hh.
  destruct (Regex.captures a); [|exact Hh].
  cbn [fst all_chars]. now rewrite (Ha eq_refl c Hc), Hh.
Qed.

Lemma star_captures_only (p : ascii -> bool) (a : Regex.atom)
    (k : string -> option Regex.hit) :
  captures_within p a -> captures_only p k -> captures_only p (Regex.star a k).
Proof.
  intros Ha Hk s. induction s as [|c s IH]; intros h; cbn [Regex.star].
  - apply Hk.
  - destruct (Regex.cls a c) eqn:Hc; [|apply Hk].
    destruct (Regex.star a k s) as [h'|] eqn:E; [|apply Hk].
    intros [= <-]. apply keep_within; auto.
Qed.

Lemma cons_captures_only (p : ascii -> bool) (a : Regex.atom) (re : Regex.regex) :
  captures_within p a -> captures_only p (Regex.match_here re) ->
  captures_only p (Regex.match_here (a :: re)).
Proof.
  intros Ha Hre s h. cbn [Regex.match_here].
  destruct (Regex.rep a).
  - destruct s as [|c s]; [discriminate|].
    destruct (Regex.cls a c) eqn:Hc; [|discriminate].
    destruct (Regex.match_here re s) as [h'|] eqn:E; cbn [option_map];
      [|discriminate].
    intros [= <-]. apply keep_within; auto. now apply (Hre s).
  - destruct s as [|c s]; [apply Hre|].
    destruct (Regex.cls a c) eqn:Hc; [|apply Hre].
    destruct (Regex.match_here re s) as [h'|] eqn:E; [|apply Hre].
    intros [= <-]. apply keep_within; auto. now apply (Hre s).
  - now apply star_captures_only.
  - destruct s as [|c s]; [discriminate|].
    destruct (Regex.cls a c) eqn:Hc; [|discriminate].
    destruct (Regex.star a (Regex.match_here re) s) as [h'|] eqn:E;
      cbn [option_map]; [|discriminate].
    intros [= <-]. apply keep_within; auto.
    now apply (star_captures_only p a _ Ha Hre s).
Qed.

Lemma regex_captures_only (p : ascii -> bool) (re : Regex.regex) :
  Forall (captures_within p) re -> captures_only p (Regex.search re).
Proof.
  intros Hre.
  assert (Hhere : captures_only p (Regex.match_here re)).
  { induction Hre as [|a re Ha _ IH]; [now intros s h [= <-]|].
    now apply cons_captures_only. }
  intros s. induction s as [|c s IH]; intros h; cbn [Regex.search].
  - destruct (Regex.match_here re EmptyString) eqn:E; [|discriminate].
    intros [= <-]. now apply (Hhere EmptyString).
  - destruct (Regex.match_here re (String c s)) eqn:E; [|apply IH].
    intros [= <-]. now apply (Hhere (String c s)).
Qed.

Lemma non_capturing_within (p : ascii -> bool) (a : Regex.atom) :
  Regex.captures a = false -> captures_within p a.
Proof. unfold captures_within. intros ->. discriminate. Qed.

Lemma name_group_within : captures_within Regex.name_char Regex.name_group.
Proof. intros _ c Hc. exact Hc. Qed.

Lemma patterns_capture_name_chars :
  Forall (fun re => Forall (captures_within Regex.name_char) re)
    OllamaService.patterns.
Proof.
  unfold OllamaService.patterns, Regex.recipe_pattern, Regex.make_pattern,
    Regex.try_pattern.
  cbn [Regex.lit_i app].
  repeat (apply List.Forall_cons;
          [repeat (apply List.Forall_cons;
                   [first [ apply non_capturing_within; reflexivity
                          | apply name_group_within ]|]);
           apply List.Forall_nil|]).
  apply List.Forall_nil.
Qed.

Lemma trimStart_keeps_chars (p : ascii -> bool) (s : string) :
  all_chars p s = true -> all_chars p (Text.trimStart s) = true.
Proof.
  induction s as [|c s IH]; [trivial|]. cbn [Text.trimStart].
  destruct (Text.is_space c); [|trivial].
  cbn [all_chars]. intros H. apply andb_true_iff in H. now apply IH.
Qed.

Lemma trimEnd_keeps_chars (p : ascii -> bool) (s : string) :
  all_chars p s = true -> all_chars p (Text.trimEnd s) = true.
Proof.
  induction s as [|c s IH]; [trivial|]. cbn [Text.trimEnd all_chars].
  intros H. apply andb_true_iff in H. destruct H as [Hc Hs].
  specialize (IH Hs). destruct (Text.trimEnd s) as [|c' t].
  - destruct (Text.is_space c); [reflexivity|]. cbn [all_chars]. now rewrite Hc.
  - cbn [all_chars] in *. now rewrite Hc, IH.
Qed.

Lemma first_capture_chars (p : ascii -> bool) (ps : list Regex.regex)
    (line name : string) :
  Forall (fun re => Forall (captures_within p) re) ps ->
  OllamaService.first_capture ps line = Some name ->
  all_chars p name = true.
Proof.
  induction 1 as [|re ps Hre _ IH]; cbn [OllamaService.first_capture];
    [discriminate|].
  destruct (Regex.search re line) as [[g rest]|] eqn:E; [|exact IH].
  destruct (Text.truthy g); [|exact IH].
  intros [= <-]. unfold Text.trim.
  apply trimEnd_keeps_chars, trimStart_keeps_chars.
  exact (regex_captures_only p re Hre line (g, rest) E).
Qed.

(** X22. A dish name that [extractRecipeName] returns contains no comma,
    no period and no line feed; the dish name of a suggestion that the
    parser produces is moreover not empty. *)
Theorem dish_name_characters (line : string) :
  (forall name, OllamaService.extractRecipeName line = Some name ->
                all_chars Regex.name_char name = true) /\
  (forall s, OllamaService.meal_visit line = Some s ->
             exists name, s_recipe_name s = Some name /\ name <> EmptyString /\
                          all_chars Regex.name_char name = true).
Proof.
  assert (H : forall name, OllamaService.extractRecipeName line = Some name ->
                           all_chars Regex.name_char name = true).
  { intros name. apply first_capture_chars, patterns_capture_name_chars. }
  split; [exact H|]. intros s. unfold OllamaService.meal_visit.
  destruct (OllamaService.is_marker line); [|discriminate].
  cbn [meal_object s_recipe_name].
  destruct (OllamaService.extractRecipeName line) as [[|c t]|] eqn:E;
    cbn [truthy_str Text.truthy]; try discriminate.
  intros [= <-]. exists (String c t). cbn [s_recipe_name].
  repeat split; [discriminate|now apply H].
Qed.

Lemma dish_name_characters_witness :
  OllamaService.extractRecipeName "1. Make erwtensoep met roggebrood. Lekker, toch?"
  = Some "erwtensoep met roggebrood" /\
  all_chars Regex.name_char "erwtensoep met roggebrood" = true.
Proof.
  split; [reflexivity|].
  apply (proj1 (dish_name_characters
                  "1. Make erwtensoep met roggebrood. Lekker, toch?")).
  reflexivity.
Defined.

Lemma omap_length_filter (l : list string) :
  (length (omap OllamaService.meal_visit l)
   <= length (List.filter OllamaService.is_marker l))%nat.
Proof.
  induction l as [|x l IH]; [reflexivity|].
  change (omap ?g (x :: l)) with
    (match g x with Some y => y :: omap g l | None => omap g l end).
  cbn [List.filter]. unfold OllamaService.meal_visit at 1.
  destruct (OllamaService.is_marker x); [|exact IH].
  destruct (truthy_str _); simpl; lia.
Qed.

Lemma kept_from_all (now index : Z) (l : list Suggestion) :
  Forall (fun s => kept s = true) l ->
  length (kept_from now index l) = length l.
Proof.
  intros H. revert index. induction H as [|s l Hs _ IH]; intros index;
    [reflexivity|].
  cbn [kept_from]. rewrite Hs. cbn [length]. now rewrite IH.
Qed.

(** X23. The number of recommendations normalised from a meal-planning
    completion is the number of its lines that produce a suggestion, and
    so at most the number of its list-marker lines. *)
Theorem one_recommendation_per_dish_line (now : Z) (text : string) :
  length (AIService.parseMealRecommendations now
            (OllamaService.extractSuggestions text meal_planning))
  = length (omap OllamaService.meal_visit (OllamaService.response_lines text)) /\
  (length (AIService.parseMealRecommendations now
             (OllamaService.extractSuggestions text meal_planning))
   <= length (marker_lines text))%nat.
Proof.
  assert (Hlen : length (AIService.parseMealRecommendations now
                           (OllamaService.extractSuggestions text meal_planning))
                 = length (omap OllamaService.meal_visit
                             (OllamaService.response_lines text))).
  { unfold OllamaService.extractSuggestions. cbv zeta.
    rewrite forEach_push_omap. cbn [app].
    destruct (omap OllamaService.meal_visit (OllamaService.response_lines text))
      as [|s l] eqn:E; [reflexivity|].
    change (0 <? Z.of_nat (length (s :: l)))%Z with true. cbv iota.
    unfold AIService.parseMealRecommendations.
    rewrite forEach_from_kept_from. cbn [app]. apply kept_from_all.
    apply List.Forall_forall. intros s' Hs'. rewrite <- E in Hs'.
    apply list_elem_of_In, list_elem_of_omap in Hs'.
    destruct Hs' as (line & _ & Hline). now apply meal_visit_kept in Hline. }
  split; [exact Hlen|]. rewrite Hlen.
  unfold marker_lines, OllamaService.response_lines.
  rewrite <- filter_marker_of_non_blank. apply omap_length_filter.
Qed.

Lemma first_included_first (keywords before after : list string)
    (k line : string) :
  keywords = (before ++ k :: after)%list ->
  Forall (fun k' => Text.includes k' (Text.toLowerCase line) = false) before ->
  Text.includes k (Text.toLowerCase line) = true ->
  OllamaService.first_included keywords line = Some k.
Proof.
  intros -> Hbefore Hk. induction Hbefore as [|x before Hx _ IH];
    cbn [app OllamaService.first_included].
  - now rewrite Hk.
  - now rewrite Hx.
Qed.

Lemma first_included_nowhere (keywords : list string) (line : string) :
  Forall (fun k' => Text.includes k' (Text.toLowerCase line) = false) keywords ->
  OllamaService.first_included keywords line = None.
Proof.
  induction 1 as [|x ks Hx _ IH]; cbn [OllamaService.first_included];
    [reflexivity|].
  now rewrite Hx.
Qed.

(** X24. On an ASCII line, the meal keyword is the first of breakfast,
    lunch, dinner, snack, in that order, that occurs in the lowered line,
    wherever it stands in the line, and it is meal when none of the four
    occurs. *)
Theorem meal_keyword_priority (line : string) :
  ascii_text line ->
  let absent k := Text.includes k (Text.toLowerCase line) = false in
  (forall before k after,
     ["breakfast"; "lunch"; "dinner"; "snack"] = (before ++ k :: after)%list ->
     Forall absent before ->
     Text.includes k (Text.toLowerCase line) = true ->
     OllamaService.extractMealType line = k) /\
  (Forall absent ["breakfast"; "lunch"; "dinner"; "snack"] ->
   OllamaService.extractMealType line = "meal").
Proof.
  intros _. cbv zeta. unfold OllamaService.extractMealType. split.
  - intros before k after Hlist Hbefore Hk.
    now rewrite (first_included_first _ before after k line Hlist Hbefore Hk).
  - intros Hnone. now rewrite (first_included_nowhere _ line Hnone).
Qed.

Lemma meal_keyword_priority_witness :
  ascii_text "- Snack or Dinner leftovers" /\
  OllamaService.extractMealType "- Snack or Dinner leftovers" = "dinner".
Proof.
  split; [reflexivity|].
  apply (proj1 (meal_keyword_priority "- Snack or Dinner leftovers" eq_refl)
           ["breakfast"; "lunch"] "dinner" ["snack"]);
    [reflexivity| |reflexivity].
  repeat (apply List.Forall_cons; [reflexivity|]). apply List.Forall_nil.
Defined.

Lemma is_marker_iff_marker_prefix_witness :
  marker_text "3." /\ OllamaService.is_marker ("3." ++ " Havermout") = true.
Proof.
  assert (Hm : marker_text "3.").
  { right. right. exists "3". repeat split. discriminate. }
  split; [exact Hm|].
  apply (proj2 (is_marker_iff_marker_prefix ("3." ++ " Havermout"))).
  now exists "3.", " Havermout".
Defined.

Lemma generate_outcome_witness :
  OllamaService.generateSuggestions (ollama_says "- Try pasta.")
    (AIService.build_prompt (ollama_says "- Try pasta.") over_target)
  = Ok (OllamaService.parseOllamaResponse "- Try pasta." meal_planning) /\
  forall m,
    OllamaService.generateSuggestions ollama_down
      (AIService.build_prompt ollama_down over_target) = Throw m ->
    m = masked_error.
Proof.
  split.
  - apply (proj1 (generate_outcome (ollama_says "- Try pasta.")
                    (AIService.build_prompt (ollama_says "- Try pasta.") over_target))).
    exists "- Try pasta.". split; [|reflexivity].
    eexists. repeat split.
  - exact (proj2 (generate_outcome ollama_down
                    (AIService.build_prompt ollama_down over_target))).
Defined.
